(** * The Langfuse tracer of langgraph_supervisor

    A shallow embedding of
    [src/langgraph_supervisor/observability/langfuse.py]:
    [get_langfuse_callback], [LangfuseSupervisorTracer.__init__] and
    [LangfuseSupervisorTracer.trace_workflow] with its two closures
    [traced_invoke] and [traced_ainvoke].

    Python objects that the code mutates or compares by identity (the
    configuration dicts, the workflow objects) live in a store indexed by
    locations; the process environment [os.environ] is a finite map; the
    logger is a list of emitted records. The graph executor ([Pregel]) and
    the observability backend (langfuse) are external collaborators and
    enter as parameters. *)

From stdpp Require Import base option list strings gmap.
From Stdlib Require Import ZArith.

Local Open Scope string_scope.
Local Open Scope list_scope.

(** ** Python values *)

Abbreviation loc := nat.

(** Values that can sit in a configuration dict or be passed as state.
    [VObj] is an opaque object without [__iter__] (a callback handler, a
    callback manager); [VRef] is a reference to a dict of the store. *)
#[warnings="-register-all"]
Inductive value : Type :=
  | VNone
  | VBool (b : bool)
  | VInt (z : Z)
  | VStr (s : string)
  | VList (vs : list value)
  | VObj (o : nat)
  | VRef (l : loc).

(** A Python dict: string keys, insertion ordered, no duplicate key. *)
Definition dict := list (string * value).

(** [d.get(k)] *)
Fixpoint dict_get (k : string) (d : dict) : option value :=
  match d with
  | [] => None
  | (k', v) :: d' => if decide (k' = k) then Some v else dict_get k d'
  end.

(** [d[k] = v]: overwrite where the key is, else append at the end. *)
Fixpoint dict_set (k : string) (v : value) (d : dict) : dict :=
  match d with
  | [] => [(k, v)]
  | (k', v') :: d' =>
      if decide (k' = k) then (k', v) :: d' else (k', v') :: dict_set k v d'
  end.

(** Exceptions, all of them instances of [Exception]. [ConnectError] is
    httpx's; [PyException] stands for any other subclass of [Exception],
    named by its class. *)
Inductive exn : Type :=
  | TypeError (msg : string)
  | ConnectError (msg : string)
  | PyException (cls msg : string).

(** [str(e)] as used in the f-strings of the log messages. *)
Definition exn_str (e : exn) : string :=
  match e with
  | TypeError msg | ConnectError msg | PyException _ msg => msg
  end.

Inductive result (A : Type) : Type :=
  | Ret (a : A)
  | Raise (e : exn).
Arguments Ret {A} a.
Arguments Raise {A} e.

(** ** The tracer, callables and the object store *)

(** An instance of [LangfuseSupervisorTracer]: its only attribute. The
    handler, when present, is an opaque object identified by a number.
    The attribute is assigned in [__init__] and nowhere else, so a tracer
    is a value: what a closure reads from [self] when it is called is what
    [self] held when the closure was made. *)
Record tracer : Type := Tracer { callback_handler : option nat }.

(** What [workflow.invoke] or [workflow.ainvoke] can evaluate to: a bound
    method of the external executor class, identified by an index into
    the executor's behaviours, or one of the two closures that
    [trace_workflow] creates. A closure captures [self] and the callable
    it found on the workflow. *)
Inductive callable : Type :=
  | bound_method (m : nat)
  | traced_invoke (self : tracer) (original_invoke : callable)
  | traced_ainvoke (self : tracer) (original_ainvoke : callable).

(** A workflow object, seen through the two attributes the tracer reads
    and assigns. *)
Record workflow_obj : Type := Workflow {
  invoke : callable;
  ainvoke : callable
}.

(** [objs] holds, for each workflow object, what attribute access on
    the instance yields. [classes] holds what its class defines for it:
    the indices of the executor's entry points that [type(w).invoke] and
    [type(w).ainvoke] are when applied to the object. An assignment to an
    attribute of the instance changes [objs] only. *)
Record store : Type := Store {
  dicts : gmap nat dict;
  objs : gmap nat workflow_obj;
  classes : gmap nat (nat * nat)
}.

Definition set_dicts (f : gmap nat dict → gmap nat dict) (s : store) : store :=
  {| dicts := f (dicts s); objs := objs s; classes := classes s |}.

Definition set_objs (f : gmap nat workflow_obj → gmap nat workflow_obj)
    (s : store) : store :=
  {| dicts := dicts s; objs := f (objs s); classes := classes s |}.

(** ** Computations over a state

    A computation reads and updates a state of type [S] and returns or
    raises. [None] is a stuck computation: a dangling reference, which a
    running Python program cannot hold. An exception leaves the state as
    it was when it was raised. *)
Definition M (S A : Type) : Type := S → option (result A * S).

Definition ret {S A} (a : A) : M S A := λ s, Some (Ret a, s).
Definition raise {S A} (e : exn) : M S A := λ s, Some (Raise e, s).
Definition stuck {S A} : M S A := λ _, None.

Definition bind {S A B} (m : M S A) (k : A → M S B) : M S B :=
  λ s, match m s with
       | None => None
       | Some (Raise e, s') => Some (Raise e, s')
       | Some (Ret a, s') => k a s'
       end.

(** [try: body  except Exception as e: handler e] *)
Definition try_except {S A} (body : M S A) (handler : exn → M S A) : M S A :=
  λ s, match body s with
       | Some (Raise e, s') => handler e s'
       | r => r
       end.

Declare Scope py_scope.
Delimit Scope py_scope with py.
Notation "x ← m ; k" := (bind m (λ x, k))
  (at level 20, m at level 100, k at level 200, only parsing) : py_scope.
Notation "m ;; k" := (bind m (λ _, k))
  (at level 100, k at level 200, right associativity, only parsing) : py_scope.

(** Computations over the object store. *)
Abbreviation Py := (M store).

(** Read the dict behind a reference. *)
Definition deref (c : loc) : Py dict :=
  λ s, match dicts s !! c with
       | Some d => ret d s
       | None => stuck s
       end.

(** The dict display [{}]: allocate a new empty dict. *)
Definition new_dict : Py loc :=
  λ s, let c := fresh (dom (dicts s)) in
       ret c (set_dicts <[c := []]> s).

(** [config or {}] for [config : Optional[Dict]]: [None] and the empty
    dict are falsy. *)
Definition config_or_new (config : option loc) : Py loc :=
  match config with
  | None => new_dict
  | Some c =>
      (d ← deref c;
       match d with
       | [] => new_dict
       | _ :: _ => ret c
       end)%py
  end.

(** [config.get("callbacks", [])] *)
Definition get_callbacks (config : loc) : Py value :=
  (d ← deref config;
   ret (default (VList []) (dict_get "callbacks" d)))%py.

(** Iterating a str yields its characters as one-character strs. *)
Fixpoint chars (s : string) : list value :=
  match s with
  | EmptyString => []
  | String a s' => VStr (String a EmptyString) :: chars s'
  end.

(** The elements that [[*v]] unpacks [v] into. *)
Definition unpack (v : value) : Py (list value) :=
  match v with
  | VList vs => ret vs
  | VStr s => ret (chars s)
  | VRef l => (d ← deref l; ret ((λ kv, VStr kv.1) <$> d))%py
  | VNone | VBool _ | VInt _ | VObj _ =>
      raise (TypeError "Value after * must be an iterable")
  end.

(** The values on which [[*v]] raises [TypeError]. *)
Definition non_iterable (v : value) : bool :=
  match v with
  | VNone | VBool _ | VInt _ | VObj _ => true
  | VList _ | VStr _ | VRef _ => false
  end.

(** [config["callbacks"] = v] *)
Definition set_callbacks (config : loc) (v : value) : Py unit :=
  λ s, match dicts s !! config with
       | Some d => ret () (set_dicts <[config := dict_set "callbacks" v d]> s)
       | None => stuck s
       end.

(** [self.callback_handler] as a value. *)
Definition handler_value (self : tracer) : value :=
  match callback_handler self with
  | Some h => VObj h
  | None => VNone
  end.

(** Lines 89-93 and again 101-105: everything the two closures do before
    they delegate. Returns the configuration they hand on. *)
Definition add_langfuse_callbacks (self : tracer) (config : option loc) : Py loc :=
  (config ← config_or_new config;
   config_callbacks ← get_callbacks config;
   cs ← unpack config_callbacks;
   set_callbacks config (VList (cs ++ [handler_value self]));;
   ret config)%py.

Section Executor.

(** The external graph executor: the behaviour of its [m]-th entry point
    on a state and an optional configuration. It may read and change the
    store, and it may raise. *)
Variable pregel : nat → value → option loc → store → result value * store.

(** Calling a callable. For [traced_ainvoke] this is the coroutine run to
    completion: its body suspends only inside the awaited delegate. *)
Fixpoint call (f : callable) (state : value) (config : option loc) : Py value :=
  match f with
  | bound_method m => λ s, Some (pregel m state config s)
  | traced_invoke self original_invoke =>
      (config ← add_langfuse_callbacks self config;
       call original_invoke state (Some config))%py
  | traced_ainvoke self original_ainvoke =>
      (config ← add_langfuse_callbacks self config;
       call original_ainvoke state (Some config))%py
  end.

(** [workflow.invoke(state, config)] *)
Definition call_invoke (workflow : loc) (state : value) (config : option loc)
    : Py value :=
  λ s, match objs s !! workflow with
       | Some w => call (invoke w) state config s
       | None => stuck s
       end.

(** [await workflow.ainvoke(state, config)] *)
Definition call_ainvoke (workflow : loc) (state : value) (config : option loc)
    : Py value :=
  λ s, match objs s !! workflow with
       | Some w => call (ainvoke w) state config s
       | None => stuck s
       end.

(** [type(workflow).invoke(workflow, state, config)]: the function of
    the class, not the attribute of the instance. *)
Definition call_class_invoke (workflow : loc) (state : value)
    (config : option loc) : Py value :=
  λ s, match classes s !! workflow with
       | Some (mi, _) => call (bound_method mi) state config s
       | None => stuck s
       end.

(** [await type(workflow).ainvoke(workflow, state, config)] *)
Definition call_class_ainvoke (workflow : loc) (state : value)
    (config : option loc) : Py value :=
  λ s, match classes s !! workflow with
       | Some (_, ma) => call (bound_method ma) state config s
       | None => stuck s
       end.

End Executor.

(** ** Logging *)

Inductive level : Type := INFO | WARNING.

Definition log_record : Type := level * string.

(** ** [trace_workflow]

    Besides the returned reference and the updated store, the records it
    hands to the logger. *)
Definition trace_workflow (self : tracer) (workflow : loc) (s : store)
    : option (loc * store * list log_record) :=
  match callback_handler self with
  | None =>
      Some (workflow, s,
            [(WARNING, "Langfuse callback handler not available. Returning original workflow without tracing.")])
  | Some _ =>
      match objs s !! workflow with
      | None => None
      | Some w =>
          let original_invoke := invoke w in
          let original_ainvoke := ainvoke w in
          let s := set_objs <[workflow :=
                     {| invoke := traced_invoke self original_invoke;
                        ainvoke := ainvoke w |}]> s in
          let s := set_objs <[workflow :=
                     {| invoke := traced_invoke self original_invoke;
                        ainvoke := traced_ainvoke self original_ainvoke |}]> s in
          Some (workflow, s, [])
      end
  end.

(** ** The observability backend and the process state *)

(** The langfuse library, as far as the tracer uses it. [get_client] and
    the [CallbackHandler] constructor configure themselves from the
    process environment; clients and handlers are identified by numbers. *)
Record backend : Type := Backend {
  get_client : gmap string string → result nat;
  auth_check : nat → result bool;
  CallbackHandler : gmap string string → result nat
}.

(** Whether a str holds the character NUL. *)
Fixpoint has_nul (v : string) : bool :=
  match v with
  | EmptyString => false
  | String a v' => if Ascii.eqb a Ascii.zero then true else has_nul v'
  end.

(** A value of an environment variable: a str without NUL. The operating
    system cannot hold another, and [os.environ] refuses it. *)
Definition env_value : Type := dsig (λ v : string, has_nul v = false).

(** The environment of the process and the records emitted so far. *)
Record process : Type := Process {
  env_store : gmap string env_value;
  log : list log_record
}.

(** [os.environ] read as a mapping from names to strs. *)
Definition environ (p : process) : gmap string string :=
  proj1_sig <$> env_store p.

Arguments environ : simpl never.

Abbreviation IO := (M process).

Definition logger (lv : level) (msg : string) : IO unit :=
  λ p, ret () {| env_store := env_store p; log := log p ++ [(lv, msg)] |}.

(** [os.environ[k] = v], for the fixed names [k] the tracer uses: raises
    [ValueError] when [v] holds a NUL and changes nothing then. *)
Definition environ_set (k v : string) : IO unit :=
  λ p, match decide (has_nul v = false) with
       | left H =>
           ret () {| env_store :=
                       <[k := @dexist _ (λ v, has_nul v = false) _ v H]>
                         (env_store p);
                     log := log p |}
       | right _ => raise (PyException "ValueError" "embedded null byte") p
       end.

(** A call into the backend, which sees the current environment. *)
Definition extern {A} (f : gmap string string → result A) : IO A :=
  λ p, Some (f (environ p), p).

(** [if arg: os.environ[k] = arg]: [None] and the empty str are falsy. *)
Definition set_if_given (k : string) (arg : option string) : IO unit :=
  match arg with
  | Some (String a v) => environ_set k (String a v)
  | Some EmptyString | None => ret ()
  end.

Definition get_langfuse_callback (B : backend) : IO (option nat) :=
  try_except
    (langfuse ← extern (get_client B);
     authenticated ← extern (λ _, auth_check B langfuse);
     if authenticated : bool then
       (logger INFO "Langfuse client is authenticated and ready!";;
        h ← extern (CallbackHandler B);
        ret (Some h))
     else
       (logger WARNING "Langfuse authentication failed. Please check your credentials.";;
        ret None))%py
    (λ e,
       match e with
       | ConnectError _ =>
           (logger WARNING ("Connection error initializing Langfuse: " +:+ exn_str e);;
            ret None)%py
       | TypeError _ | PyException _ _ =>
           (logger WARNING ("Unexpected error initializing Langfuse: " +:+ exn_str e);;
            ret None)%py
       end).

(** [LangfuseSupervisorTracer.__init__]; returns the initialised [self]. *)
Definition __init__ (B : backend) (public_key secret_key host : option string)
    : IO tracer :=
  (set_if_given "LANGFUSE_PUBLIC_KEY" public_key;;
   set_if_given "LANGFUSE_SECRET_KEY" secret_key;;
   set_if_given "LANGFUSE_HOST" host;;
   h ← get_langfuse_callback B;
   let self := {| callback_handler := h |} in
   match callback_handler self with
   | None => logger WARNING "Failed to initialize Langfuse callback handler"
   | Some _ => logger INFO "Successfully initialized Langfuse callback handler"
   end;;
   ret self)%py.

(** [trace_workflow] applied [n] times in a row to the workflow it returns. *)
Fixpoint trace_workflow_n (n : nat) (self : tracer) (workflow : loc) (s : store)
    : option (loc * store) :=
  match n with
  | 0 => Some (workflow, s)
  | S n' =>
      match trace_workflow self workflow s with
      | Some (workflow', s', _) => trace_workflow_n n' self workflow' s'
      | None => None
      end
  end.

(** The workflow object as [trace_workflow] leaves it. *)
Definition patched (self : tracer) (w : workflow_obj) : workflow_obj :=
  {| invoke := traced_invoke self (invoke w);
     ainvoke := traced_ainvoke self (ainvoke w) |}.

(** The environment after [if arg: os.environ[k] = arg]. *)
Definition env_given (k : string) (arg : option string)
    (env : gmap string string) : gmap string string :=
  match arg with
  | Some (String a v) => <[k := String a v]> env
  | Some EmptyString | None => env
  end.

(** The environment in which [__init__] asks the backend for a client. *)
Definition env_for_client (public_key secret_key host : option string)
    (env : gmap string string) : gmap string string :=
  env_given "LANGFUSE_HOST" host
    (env_given "LANGFUSE_SECRET_KEY" secret_key
       (env_given "LANGFUSE_PUBLIC_KEY" public_key env)).

(** An argument of the constructor that [os.environ] accepts. *)
Definition arg_ok (arg : option string) : Prop :=
  match arg with
  | Some v => has_nul v = false
  | None => True
  end.

(** An argument that is given and not empty. *)
Definition given (arg : option string) : Prop :=
  match arg with
  | Some (String _ _) => True
  | Some EmptyString | None => False
  end.

(** What a variable holds after [if arg: os.environ[k] = arg]. *)
Definition after (arg : option string) (before : option string)
    : option string :=
  match arg with
  | Some (String a v) => Some (String a v)
  | Some EmptyString | None => before
  end.

(** The process after more records were logged. *)
Definition add_log (p : process) (records : list log_record) : process :=
  {| env_store := env_store p; log := log p ++ records |}.

(** The backend delivers a handler [h] in the environment [env]. *)
Definition backend_ready (B : backend) (env : gmap string string) (h : nat)
    : Prop :=
  ∃ client,
    get_client B env = Ret client
    ∧ auth_check B client = Ret true
    ∧ CallbackHandler B env = Ret h.

(** ** Concrete inputs

    An executor whose entry points 0 and 1 return the state they are
    given and whose other entry points raise; none touches the store. *)
Definition demo_pregel
    : nat → value → option loc → store → result value * store :=
  λ m state _ s,
    match m with
    | 0 | 1 => (Ret state, s)
    | _ => (Raise (PyException "GraphRecursionError" "Recursion limit reached"), s)
    end.

(** Workflow 1 runs on the entry points 0 and 1, workflow 2 on the
    raising entry point. Dict 5 is a configuration with a tag and one
    callback of the caller, dict 6 is the empty dict, dict 8 has the
    callbacks entry [None], dict 9 is a state. *)
Definition demo_store : store :=
  {| dicts :=
       {[ 5 := [("tags", VList [VStr "demo"]); ("callbacks", VList [VObj 3])];
          6 := [];
          8 := [("callbacks", VNone)];
          9 := [("messages", VList [VStr "hello"])] ]};
     objs :=
       {[ 1 := {| invoke := bound_method 0; ainvoke := bound_method 1 |};
          2 := {| invoke := bound_method 2; ainvoke := bound_method 2 |} ]};
     classes := {[ 1 := (0, 1); 2 := (2, 2) ]} |}.

Definition demo_workflow : workflow_obj :=
  {| invoke := bound_method 0; ainvoke := bound_method 1 |}.

Definition failing_workflow : workflow_obj :=
  {| invoke := bound_method 2; ainvoke := bound_method 2 |}.

Definition demo_config : dict :=
  [("tags", VList [VStr "demo"]); ("callbacks", VList [VObj 3])].

Definition demo_state : value := VRef 9.

Definition demo_tracer : tracer := {| callback_handler := Some 7 |}.

Definition noop_tracer : tracer := {| callback_handler := None |}.

(** A backend that makes a client only for the public key "pk-from-env". *)
Definition picky_backend : backend :=
  {| get_client := λ env,
       if decide (env !! "LANGFUSE_PUBLIC_KEY" = Some "pk-from-env")
       then Ret 1
       else Raise (ConnectError "connection refused");
     auth_check := λ _, Ret true;
     CallbackHandler := λ _, Ret 9 |}.

Definition demo_process : process :=
  {| env_store :=
       {[ "LANGFUSE_PUBLIC_KEY"
          := @dexist _ (λ v, has_nul v = false) _ "pk-from-env" eq_refl ]};
     log := [] |}.

(** ** The demo scripts as callers

    [ea_demo.py] and [example_usage.py] build the tracer from the process
    environment, trace the compiled application and invoke it once
    without a configuration. The application is whatever the executor
    compiled: a workflow object of the store. *)

(** [LangfuseSupervisorTracer(public_key=os.getenv("LANGFUSE_PUBLIC_KEY"),
    secret_key=os.getenv("LANGFUSE_SECRET_KEY"),
    host=os.getenv("LANGFUSE_HOST", "http://localhost:3000"))] *)
Definition script_tracer (B : backend) : IO tracer :=
  λ p,
    __init__ B
      (environ p !! "LANGFUSE_PUBLIC_KEY")
      (environ p !! "LANGFUSE_SECRET_KEY")
      (Some (default "http://localhost:3000" (environ p !! "LANGFUSE_HOST")))
      p.

(** [tracer = ...; traced_app = tracer.trace_workflow(app);
    result = traced_app.invoke(state)] *)
Definition script_run
    (pregel : nat → value → option loc → store → result value * store)
    (B : backend) (app : loc) (state : value) (p : process) (s : store)
    : option (result value * process * store) :=
  match script_tracer B p with
  | None => None
  | Some (Raise e, p1) => Some (Raise e, p1, s)
  | Some (Ret tracer, p1) =>
      match trace_workflow tracer app s with
      | None => None
      | Some (traced_app, s1, records) =>
          let p2 := {| env_store := env_store p1; log := log p1 ++ records |} in
          match call_invoke pregel traced_app state None s1 with
          | None => None
          | Some (result, s2) => Some (result, p2, s2)
          end
      end
  end.

(** The warning that [get_langfuse_callback] logs for an exception. *)
Definition init_warning (e : exn) : log_record :=
  match e with
  | ConnectError msg =>
      (WARNING, "Connection error initializing Langfuse: " +:+ msg)
  | TypeError msg | PyException _ msg =>
      (WARNING, "Unexpected error initializing Langfuse: " +:+ msg)
  end.

Definition second_tracer : tracer := {| callback_handler := Some 11 |}.

Definition empty_process : process := {| env_store := ∅; log := [] |}.

(** * Properties *)

(** ** Dicts *)

Lemma dict_get_set_eq k v d : dict_get k (dict_set k v d) = Some v.
Proof.
  induction d as [|[k' v'] d IH]; simpl.
  - by rewrite decide_True.
  - destruct (decide (k' = k)) as [->|Hne]; simpl.
    + by rewrite decide_True.
    + by rewrite decide_False.
Qed.

Lemma dict_get_set_ne k k' v d :
  k ≠ k' → dict_get k' (dict_set k v d) = dict_get k' d.
Proof.
  intros Hne. induction d as [|[k0 v0] d IH]; simpl.
  - by rewrite decide_False.
  - destruct (decide (k0 = k)) as [->|Hk0]; simpl.
    + by rewrite !decide_False.
    + by rewrite IH.
Qed.

Lemma dict_set_set k v1 v2 d :
  dict_set k v2 (dict_set k v1 d) = dict_set k v2 d.
Proof.
  induction d as [|[k0 v0] d IH]; simpl.
  - by rewrite decide_True.
  - destruct (decide (k0 = k)) as [->|Hk0]; simpl.
    + by rewrite decide_True.
    + by rewrite decide_False, IH.
Qed.

Lemma dict_set_id k v d : dict_get k d = Some v → dict_set k v d = d.
Proof.
  induction d as [|[k0 v0] d IH]; simpl; [done|].
  destruct (decide (k0 = k)) as [->|Hk0]; [congruence|].
  intros H. by rewrite IH.
Qed.

Lemma dict_get_Some_nonempty k v d : dict_get k d = Some v → d ≠ [].
Proof. by destruct d. Qed.

Lemma store_eq s1 s2 :
  dicts s1 = dicts s2 → objs s1 = objs s2 → classes s1 = classes s2 → s1 = s2.
Proof. destruct s1, s2; simpl; congruence. Qed.

Lemma fresh_dict_unused s : dicts s !! fresh (dom (dicts s)) = None.
Proof. apply not_elem_of_dom, is_fresh. Qed.

(** A closure is never the callable it wraps. *)
Lemma traced_invoke_neq self f : traced_invoke self f ≠ f.
Proof. induction f; congruence. Qed.

Lemma traced_ainvoke_neq self f : traced_ainvoke self f ≠ f.
Proof. induction f; congruence. Qed.

(** Running a bind whose first part returns. *)
Lemma bind_run {S A B} (m : M S A) (k : A → M S B) s a s' :
  m s = Some (Ret a, s') → bind m k s = k a s'.
Proof. intros H. unfold bind. by rewrite H. Qed.

Lemma bind_raise {S A B} (m : M S A) (k : A → M S B) s e s' :
  m s = Some (Raise e, s') → bind m k s = Some (Raise e, s').
Proof. intros H. unfold bind. by rewrite H. Qed.

Lemma bind_cong_l {S A B} (m1 m2 : M S A) (k : A → M S B) s :
  m1 s = m2 s → bind m1 k s = bind m2 k s.
Proof. unfold bind. by intros ->. Qed.

Lemma deref_run c d s : dicts s !! c = Some d → deref c s = Some (Ret d, s).
Proof. intros H. unfold deref. by rewrite H. Qed.

Lemma set_callbacks_run c d v s :
  dicts s !! c = Some d →
  set_callbacks c v s
  = Some (Ret (), set_dicts <[c := dict_set "callbacks" v d]> s).
Proof. intros H. unfold set_callbacks. by rewrite H. Qed.

(** A non-empty dict of the caller is updated where it is. *)
Lemma add_callbacks_nonempty self c d cs s :
  dicts s !! c = Some d →
  d ≠ [] →
  unpack (default (VList []) (dict_get "callbacks" d)) s = Some (Ret cs, s) →
  add_langfuse_callbacks self (Some c) s
  = Some (Ret c,
          set_dicts
            <[c := dict_set "callbacks" (VList (cs ++ [handler_value self])) d]> s).
Proof.
  intros Hc Hd Hu. unfold add_langfuse_callbacks.
  rewrite (bind_run _ _ s c s).
  2:{ unfold config_or_new. rewrite (bind_run _ _ s d s) by by apply deref_run.
      by destruct d. }
  rewrite (bind_run _ _ s (default (VList []) (dict_get "callbacks" d)) s).
  2:{ unfold get_callbacks. by rewrite (bind_run _ _ s d s) by by apply deref_run. }
  rewrite (bind_run _ _ s cs s) by done.
  by rewrite (bind_run _ _ s () _) by by apply set_callbacks_run.
Qed.

(** Without a configuration the handle goes into a new dict. *)
Lemma add_callbacks_None self s :
  add_langfuse_callbacks self None s
  = Some (Ret (fresh (dom (dicts s))),
          set_dicts
            <[fresh (dom (dicts s)) := [("callbacks", VList [handler_value self])]]> s).
Proof.
  unfold add_langfuse_callbacks. set (c := fresh (dom (dicts s))).
  rewrite (bind_run _ _ s c (set_dicts <[c := []]> s)) by done.
  assert (dicts (set_dicts <[c := []]> s) !! c = Some []) as Hc
    by (simpl; apply lookup_insert_eq).
  rewrite (bind_run _ _ _ (VList []) (set_dicts <[c := []]> s)).
  2:{ unfold get_callbacks.
      by rewrite (bind_run _ _ _ ([] : dict) _) by by apply deref_run. }
  rewrite (bind_run _ _ _ [] (set_dicts <[c := []]> s)) by done.
  rewrite (bind_run _ _ _ () _) by by apply set_callbacks_run.
  unfold ret, set_dicts. simpl. by rewrite insert_insert_eq.
Qed.

(** And so it does when the caller's dict is empty. *)
Lemma add_callbacks_empty self c s :
  dicts s !! c = Some [] →
  add_langfuse_callbacks self (Some c) s = add_langfuse_callbacks self None s.
Proof.
  intros Hc. unfold add_langfuse_callbacks. apply bind_cong_l.
  unfold config_or_new.
  by rewrite (bind_run _ _ s ([] : dict) s) by by apply deref_run.
Qed.

(** ** [trace_workflow] with a handle *)

Lemma trace_workflow_present self h workflow w s :
  callback_handler self = Some h →
  objs s !! workflow = Some w →
  trace_workflow self workflow s
  = Some (workflow, set_objs <[workflow := patched self w]> s, []).
Proof.
  intros Hh Hw. unfold trace_workflow. rewrite Hh, Hw.
  unfold set_objs. simpl. by rewrite insert_insert_eq.
Qed.

Section Calls.

Variable pregel : nat → value → option loc → store → result value * store.

Lemma call_invoke_lookup workflow w state config s :
  objs s !! workflow = Some w →
  call_invoke pregel workflow state config s = call pregel (invoke w) state config s.
Proof. intros Hw. unfold call_invoke. by rewrite Hw. Qed.

Lemma call_ainvoke_lookup workflow w state config s :
  objs s !! workflow = Some w →
  call_ainvoke pregel workflow state config s = call pregel (ainvoke w) state config s.
Proof. intros Hw. unfold call_ainvoke. by rewrite Hw. Qed.

(** Both closures: run the common prefix, then delegate. *)
Lemma call_traced_invoke self f state config s c s' :
  add_langfuse_callbacks self config s = Some (Ret c, s') →
  call pregel (traced_invoke self f) state config s
  = call pregel f state (Some c) s'.
Proof. intros H. simpl. unfold bind. by rewrite H. Qed.

Lemma call_traced_ainvoke self f state config s c s' :
  add_langfuse_callbacks self config s = Some (Ret c, s') →
  call pregel (traced_ainvoke self f) state config s
  = call pregel f state (Some c) s'.
Proof. intros H. simpl. unfold bind. by rewrite H. Qed.

(** A callbacks entry that cannot be unpacked makes both closures raise
    [TypeError] before they delegate; nothing has been changed by then. *)
Lemma traced_raises_on_non_iterable self f state c d v s :
  dicts s !! c = Some d →
  dict_get "callbacks" d = Some v →
  non_iterable v = true →
  call pregel (traced_invoke self f) state (Some c) s
  = Some (Raise (TypeError "Value after * must be an iterable"), s)
  ∧ call pregel (traced_ainvoke self f) state (Some c) s
    = Some (Raise (TypeError "Value after * must be an iterable"), s).
Proof.
  intros Hc Hv Hni.
  assert (add_langfuse_callbacks self (Some c) s
          = Some (Raise (TypeError "Value after * must be an iterable"), s))
    as Hadd.
  { unfold add_langfuse_callbacks.
    rewrite (bind_run _ _ s c s).
    2:{ unfold config_or_new.
        rewrite (bind_run _ _ s d s) by by apply deref_run.
        destruct d; [done|reflexivity]. }
    rewrite (bind_run _ _ s v s).
    2:{ unfold get_callbacks.
        rewrite (bind_run _ _ s d s) by by apply deref_run.
        by rewrite Hv. }
    apply bind_raise. by destruct v. }
  split; simpl; by apply bind_raise.
Qed.

(** An empty dict of the caller stays empty: the closures delegate on a
    new dict. *)
Lemma traced_leaves_empty_config self f state c s :
  dicts s !! c = Some [] →
  let c' := fresh (dom (dicts s)) in
  let s' := set_dicts <[c' := [("callbacks", VList [handler_value self])]]> s in
  c' ≠ c
  ∧ dicts s' !! c = Some []
  ∧ call pregel (traced_invoke self f) state (Some c) s
    = call pregel f state (Some c') s'
  ∧ call pregel (traced_ainvoke self f) state (Some c) s
    = call pregel f state (Some c') s'.
Proof.
  intros Hc c' s'.
  assert (c' ≠ c) as Hne.
  { intros Heq. pose proof (fresh_dict_unused s) as Hf.
    unfold c' in Heq. rewrite Heq in Hf. unfold dict in *. congruence. }
  pose proof (add_callbacks_empty self c s Hc) as Hadd.
  rewrite add_callbacks_None in Hadd. fold c' in Hadd. fold s' in Hadd.
  repeat split; [done| | |].
  - simpl. by rewrite lookup_insert_ne.
  - by apply call_traced_invoke.
  - by apply call_traced_ainvoke.
Qed.

(** ** Wrapping several times *)

Lemma trace_workflow_n_present n self h workflow w s :
  callback_handler self = Some h →
  objs s !! workflow = Some w →
  ∃ sn,
    trace_workflow_n n self workflow s = Some (workflow, sn)
    ∧ dicts sn = dicts s
    ∧ objs sn !! workflow = Some (Nat.iter n (patched self) w).
Proof.
  intros Hh. revert w s. induction n as [|n IH]; intros w s Hw; simpl.
  - by exists s.
  - rewrite (trace_workflow_present _ _ _ _ _ Hh Hw).
    destruct (IH (patched self w) (set_objs <[workflow := patched self w]> s))
      as (sn & Hn & Hd & Ho); [simpl; apply lookup_insert_eq|].
    exists sn. repeat split; [done..|].
    rewrite Ho. f_equal. clear. induction n as [|n IH]; simpl; congruence.
Qed.

(** Each layer of closures appends the handle once to the callbacks list
    of the caller's dict before the next layer sees it. *)
Lemma call_wrapped_n self n w state c :
  ∀ d cs s,
    dicts s !! c = Some d →
    dict_get "callbacks" d = Some (VList cs) →
    let s' := set_dicts
                <[c := dict_set "callbacks"
                         (VList (cs ++ replicate n (handler_value self))) d]> s in
    call pregel (invoke (Nat.iter n (patched self) w)) state (Some c) s
    = call pregel (invoke w) state (Some c) s'
    ∧ call pregel (ainvoke (Nat.iter n (patched self) w)) state (Some c) s
      = call pregel (ainvoke w) state (Some c) s'.
Proof.
  induction n as [|n IH]; intros d cs s Hc Hcs; cbv zeta.
  - simpl replicate. rewrite app_nil_r, (dict_set_id _ _ _ Hcs).
    replace (set_dicts <[c:=d]> s) with s; [done|].
    apply store_eq; simpl; [|done..]. by rewrite insert_id.
  - set (hv := handler_value self).
    set (d1 := dict_set "callbacks" (VList (cs ++ [hv])) d).
    assert (add_langfuse_callbacks self (Some c) s
            = Some (Ret c, set_dicts <[c := d1]> s)) as Hadd.
    { apply add_callbacks_nonempty; [done| |].
      - by eapply dict_get_Some_nonempty.
      - by rewrite Hcs. }
    assert (dicts (set_dicts <[c := d1]> s) !! c = Some d1) as Hc1
      by (simpl; apply lookup_insert_eq).
    pose proof (IH d1 (cs ++ [hv]) _ Hc1 (dict_get_set_eq _ _ _)) as HI.
    cbv zeta in HI. fold hv in HI.
    assert (set_dicts
              <[c := dict_set "callbacks"
                       (VList ((cs ++ [hv]) ++ replicate n hv)) d1]>
              (set_dicts <[c := d1]> s)
            = set_dicts
                <[c := dict_set "callbacks"
                         (VList (cs ++ replicate (S n) hv)) d]> s) as Heq.
    { apply store_eq; simpl; [|done..].
      rewrite insert_insert_eq. unfold d1.
      by rewrite dict_set_set, <- app_assoc. }
    rewrite Heq in HI. destruct HI as [Hi Ha].
    split.
    + change (invoke (Nat.iter (S n) (patched self) w))
        with (traced_invoke self (invoke (Nat.iter n (patched self) w))).
      by rewrite (call_traced_invoke _ _ _ _ _ _ _ Hadd).
    + change (ainvoke (Nat.iter (S n) (patched self) w))
        with (traced_ainvoke self (ainvoke (Nat.iter n (patched self) w))).
      by rewrite (call_traced_ainvoke _ _ _ _ _ _ _ Hadd).
Qed.

(** ** The claims about the traced entry points *)

(** C1. A tracer without a handle hands the workflow back: the same
    reference, the store untouched, so that invoking what it returns is
    invoking the workflow that went in, on both entry points and for
    every state and configuration. *)
Theorem C1_no_handle_pass_through self workflow s :
  callback_handler self = None →
  ∃ workflow' s' records,
    trace_workflow self workflow s = Some (workflow', s', records)
    ∧ workflow' = workflow
    ∧ s' = s
    ∧ ∀ state config,
        call_invoke pregel workflow' state config s'
        = call_invoke pregel workflow state config s
        ∧ call_ainvoke pregel workflow' state config s'
          = call_ainvoke pregel workflow state config s.
Proof.
  intros Hnone. unfold trace_workflow. rewrite Hnone.
  eexists _, _, _. split; [reflexivity|]. by repeat split.
Qed.

(** C2. With a handle [h], the traced [invoke] and [ainvoke] of a
    workflow call the entry point the workflow had before, on the same
    state and on the caller's configuration dict in which the callbacks
    list [cs] has become [cs ++ [h]]; called without a configuration,
    they call it on a new dict whose callbacks list is [[h]]. *)
Theorem C2_callbacks_extended_by_handle self h workflow w s c d cs state :
  callback_handler self = Some h →
  objs s !! workflow = Some w →
  dicts s !! c = Some d →
  dict_get "callbacks" d = Some (VList cs) →
  ∃ s1,
    trace_workflow self workflow s = Some (workflow, s1, [])
    ∧ (let d' := dict_set "callbacks" (VList (cs ++ [VObj h])) d in
       let s2 := set_dicts <[c := d']> s1 in
       dicts s2 !! c = Some d'
       ∧ dict_get "callbacks" d' = Some (VList (cs ++ [VObj h]))
       ∧ call_invoke pregel workflow state (Some c) s1
         = call pregel (invoke w) state (Some c) s2
       ∧ call_ainvoke pregel workflow state (Some c) s1
         = call pregel (ainvoke w) state (Some c) s2)
    ∧ (let c' := fresh (dom (dicts s1)) in
       let s3 := set_dicts <[c' := [("callbacks", VList [VObj h])]]> s1 in
       dicts s1 !! c' = None
       ∧ call_invoke pregel workflow state None s1
         = call pregel (invoke w) state (Some c') s3
       ∧ call_ainvoke pregel workflow state None s1
         = call pregel (ainvoke w) state (Some c') s3).
Proof.
  intros Hh Hw Hc Hcs.
  eexists. split; [by apply trace_workflow_present with h|].
  set (s1 := set_objs _ s).
  assert (objs s1 !! workflow = Some (patched self w)) as Hw1
    by (simpl; apply lookup_insert_eq).
  assert (handler_value self = VObj h) as Hv
    by (unfold handler_value; by rewrite Hh).
  rewrite !(call_invoke_lookup _ _ _ _ _ Hw1).
  rewrite !(call_ainvoke_lookup _ _ _ _ _ Hw1).
  split.
  - assert (add_langfuse_callbacks self (Some c) s1
            = Some (Ret c, set_dicts
                <[c := dict_set "callbacks" (VList (cs ++ [VObj h])) d]> s1))
      as Hadd.
    { rewrite <- Hv. apply add_callbacks_nonempty; [done| |].
      - by eapply dict_get_Some_nonempty.
      - by rewrite Hcs. }
    repeat split.
    + simpl. apply lookup_insert_eq.
    + apply dict_get_set_eq.
    + by apply call_traced_invoke.
    + by apply call_traced_ainvoke.
  - pose proof (add_callbacks_None self s1) as Hadd. rewrite Hv in Hadd.
    repeat split.
    + apply fresh_dict_unused.
    + by apply call_traced_invoke.
    + by apply call_traced_ainvoke.
Qed.

(** C4. Whatever the entry point the workflow had before does on the
    augmented configuration, returning a value or raising, is what the
    traced entry point does: same outcome, same store. In particular an
    exception raised by the delegate comes out as it is. *)
Theorem C4_outcome_forwarded self h workflow w s s1 records state config c' s2 :
  callback_handler self = Some h →
  objs s !! workflow = Some w →
  trace_workflow self workflow s = Some (workflow, s1, records) →
  add_langfuse_callbacks self config s1 = Some (Ret c', s2) →
  (call_invoke pregel workflow state config s1
   = call pregel (invoke w) state (Some c') s2
   ∧ call_ainvoke pregel workflow state config s1
     = call pregel (ainvoke w) state (Some c') s2)
  ∧ (∀ e s3,
       call pregel (invoke w) state (Some c') s2 = Some (Raise e, s3) →
       call_invoke pregel workflow state config s1 = Some (Raise e, s3))
  ∧ (∀ e s3,
       call pregel (ainvoke w) state (Some c') s2 = Some (Raise e, s3) →
       call_ainvoke pregel workflow state config s1 = Some (Raise e, s3))
  ∧ (∀ v s3,
       call pregel (invoke w) state (Some c') s2 = Some (Ret v, s3) →
       call_invoke pregel workflow state config s1 = Some (Ret v, s3))
  ∧ (∀ v s3,
       call pregel (ainvoke w) state (Some c') s2 = Some (Ret v, s3) →
       call_ainvoke pregel workflow state config s1 = Some (Ret v, s3)).
Proof.
  intros Hh Hw Htr Hadd.
  rewrite (trace_workflow_present _ _ _ _ _ Hh Hw) in Htr.
  injection Htr as <- _.
  set (s1 := set_objs _ s) in *.
  assert (objs s1 !! workflow = Some (patched self w)) as Hw1
    by (simpl; apply lookup_insert_eq).
  rewrite (call_invoke_lookup _ _ _ _ _ Hw1).
  rewrite (call_ainvoke_lookup _ _ _ _ _ Hw1).
  simpl invoke. simpl ainvoke.
  rewrite (call_traced_invoke _ _ _ _ _ _ _ Hadd).
  rewrite (call_traced_ainvoke _ _ _ _ _ _ _ Hadd).
  by repeat split.
Qed.

(** C5. After [n] applications of [trace_workflow] with a handle [h],
    an invocation with a configuration whose callbacks list [cs] has
    length [k] reaches the entry point the workflow had before any wrap
    with the callbacks list [cs] followed by [n] copies of [h], of length
    [k + n]: one more per wrap. *)
Theorem C5_callbacks_grow_by_number_of_wraps
    n self h workflow w s c d cs state :
  callback_handler self = Some h →
  objs s !! workflow = Some w →
  dicts s !! c = Some d →
  dict_get "callbacks" d = Some (VList cs) →
  ∃ sn,
    trace_workflow_n n self workflow s = Some (workflow, sn)
    ∧ (let cs' := cs ++ replicate n (VObj h) in
       let d' := dict_set "callbacks" (VList cs') d in
       let s' := set_dicts <[c := d']> sn in
       length cs' = length cs + n
       ∧ dicts s' !! c = Some d'
       ∧ dict_get "callbacks" d' = Some (VList cs')
       ∧ call_invoke pregel workflow state (Some c) sn
         = call pregel (invoke w) state (Some c) s'
       ∧ call_ainvoke pregel workflow state (Some c) sn
         = call pregel (ainvoke w) state (Some c) s').
Proof.
  intros Hh Hw Hc Hcs.
  destruct (trace_workflow_n_present n _ _ _ _ _ Hh Hw) as (sn & Hn & Hd & Ho).
  exists sn. split; [done|]. cbv zeta.
  assert (handler_value self = VObj h) as Hv
    by (unfold handler_value; by rewrite Hh).
  rewrite (call_invoke_lookup _ _ _ _ _ Ho), (call_ainvoke_lookup _ _ _ _ _ Ho).
  rewrite <- Hd in Hc.
  destruct (call_wrapped_n self n w state c d cs sn Hc Hcs) as [Hi Ha].
  rewrite Hv in Hi, Ha.
  repeat split; [|simpl; apply lookup_insert_eq|apply dict_get_set_eq|done..].
  by rewrite length_app, length_replicate.
Qed.

(** C10, as amended. A caller's configuration dict that is not empty,
    and whose callbacks entry is absent or can be unpacked into [cs], is
    the dict the traced entry points update: when they delegate, and
    after they return if the executor leaves that dict alone, the
    caller's dict maps "callbacks" to [cs ++ [h]] and every other key to
    what it held. *)
Theorem C10_nonempty_config_updated_in_place
    self h workflow w mi ma s s1 records c d cs state :
  callback_handler self = Some h →
  objs s !! workflow = Some w →
  invoke w = bound_method mi →
  ainvoke w = bound_method ma →
  trace_workflow self workflow s = Some (workflow, s1, records) →
  dicts s1 !! c = Some d →
  d ≠ [] →
  unpack (default (VList []) (dict_get "callbacks" d)) s1 = Some (Ret cs, s1) →
  let d' := dict_set "callbacks" (VList (cs ++ [VObj h])) d in
  let s2 := set_dicts <[c := d']> s1 in
  dicts (pregel mi state (Some c) s2).2 !! c = dicts s2 !! c →
  dicts (pregel ma state (Some c) s2).2 !! c = dicts s2 !! c →
  (∃ r s3, call_invoke pregel workflow state (Some c) s1 = Some (r, s3)
           ∧ dicts s3 !! c = Some d')
  ∧ (∃ r s3, call_ainvoke pregel workflow state (Some c) s1 = Some (r, s3)
             ∧ dicts s3 !! c = Some d')
  ∧ dict_get "callbacks" d' = Some (VList (cs ++ [VObj h]))
  ∧ ∀ k, k ≠ "callbacks" → dict_get k d' = dict_get k d.
Proof.
  intros Hh Hw Hmi Hma Htr Hc Hd Hu d' s2 Hi Ha.
  rewrite (trace_workflow_present _ _ _ _ _ Hh Hw) in Htr.
  injection Htr as <- _.
  set (s1 := set_objs _ s) in *.
  assert (objs s1 !! workflow = Some (patched self w)) as Hw1
    by (simpl; apply lookup_insert_eq).
  assert (handler_value self = VObj h) as Hv
    by (unfold handler_value; by rewrite Hh).
  pose proof (add_callbacks_nonempty self c d cs s1 Hc Hd Hu) as Hadd.
  rewrite Hv in Hadd. fold d' in Hadd. fold s2 in Hadd.
  assert (dicts s2 !! c = Some d') as Hc2 by (simpl; apply lookup_insert_eq).
  rewrite (call_invoke_lookup _ _ _ _ _ Hw1), (call_ainvoke_lookup _ _ _ _ _ Hw1).
  simpl invoke. simpl ainvoke.
  rewrite (call_traced_invoke _ _ _ _ _ _ _ Hadd).
  rewrite (call_traced_ainvoke _ _ _ _ _ _ _ Hadd).
  rewrite Hmi, Hma. simpl call.
  rewrite Hc2 in Hi, Ha.
  split; [|split; [|split]].
  - destruct (pregel mi state (Some c) s2) as [r s3]. by exists r, s3.
  - destruct (pregel ma state (Some c) s2) as [r s3]. by exists r, s3.
  - apply dict_get_set_eq.
  - intros k Hk. by apply dict_get_set_ne.
Qed.

End Calls.

(** ** The claims about [trace_workflow] itself *)


(** C9, as amended. With a handle, [trace_workflow] assigns to the
    [invoke] and [ainvoke] attributes of the object it was given and
    returns that object. Afterwards attribute access on the object, from
    whichever reference, yields the closures, which are not the entry
    points found before, and every call through the attributes runs a
    closure. The class is not touched: through it the entry points of the
    untraced workflow are still called, and they run the executor on the
    configuration as the caller passed it. *)
Theorem C9_argument_patched_in_place pregel self h workflow w s :
  callback_handler self = Some h →
  objs s !! workflow = Some w →
  ∃ s' w',
    trace_workflow self workflow s = Some (workflow, s', [])
    ∧ objs s' !! workflow = Some w'
    ∧ invoke w' = traced_invoke self (invoke w)
    ∧ ainvoke w' = traced_ainvoke self (ainvoke w)
    ∧ invoke w' ≠ invoke w
    ∧ ainvoke w' ≠ ainvoke w
    ∧ (∀ state config,
         call_invoke pregel workflow state config s'
         = call pregel (traced_invoke self (invoke w)) state config s'
         ∧ call_ainvoke pregel workflow state config s'
           = call pregel (traced_ainvoke self (ainvoke w)) state config s')
    ∧ classes s' = classes s
    ∧ ∀ mi ma state config,
        classes s !! workflow = Some (mi, ma) →
        call_class_invoke pregel workflow state config s'
        = Some (pregel mi state config s')
        ∧ call_class_ainvoke pregel workflow state config s'
          = Some (pregel ma state config s').
Proof.
  intros Hh Hw. eexists _, (patched self w).
  split; [by apply trace_workflow_present with h|].
  assert (objs (set_objs <[workflow := patched self w]> s) !! workflow
          = Some (patched self w)) as Hw1 by (simpl; apply lookup_insert_eq).
  split; [done|]. split; [done|]. split; [done|].
  split; [apply traced_invoke_neq|]. split; [apply traced_ainvoke_neq|].
  split; [|split; [done|]].
  - intros state config.
    by rewrite (call_invoke_lookup _ _ _ _ _ _ Hw1),
      (call_ainvoke_lookup _ _ _ _ _ _ Hw1).
  - intros mi ma state config Hcls.
    unfold call_class_invoke, call_class_ainvoke. simpl classes.
    by rewrite Hcls.
Qed.

(** ** Construction of the tracer *)

(** The environment holds no NUL. *)
Lemma has_nul_environ p k v : environ p !! k = Some v → has_nul v = false.
Proof.
  unfold environ. intros (x & <- & _)%lookup_fmap_Some. apply (proj2_dsig x).
Qed.

(** A process is what its environment and its log are. *)
Lemma process_eq p1 p2 : environ p1 = environ p2 → log p1 = log p2 → p1 = p2.
Proof.
  destruct p1 as [e1 l1], p2 as [e2 l2]. unfold environ. simpl.
  intros He ->. f_equal. apply map_eq. intros k.
  assert (proj1_sig <$> e1 !! k = proj1_sig <$> e2 !! k) as Hk
    by (by rewrite <- !lookup_fmap, He).
  destruct (e1 !! k) as [x|], (e2 !! k) as [y|]; simpl in Hk; try done.
  f_equal. apply dsig_eq. congruence.
Qed.

Lemma environ_add_log p records : environ (add_log p records) = environ p.
Proof. done. Qed.

Lemma environ_set_run k v p :
  has_nul v = false →
  ∃ p',
    environ_set k v p = Some (Ret (), p')
    ∧ environ p' = <[k := v]> (environ p)
    ∧ log p' = log p.
Proof.
  intros H. unfold environ_set. destruct (decide _) as [H'|]; [|done].
  eexists. split; [reflexivity|]. split; [|done].
  unfold environ. simpl. by rewrite fmap_insert.
Qed.

Lemma environ_set_raises k v p :
  has_nul v = true →
  environ_set k v p
  = Some (Raise (PyException "ValueError" "embedded null byte"), p).
Proof.
  intros H. unfold environ_set. destruct (decide _) as [H'|]; [|done].
  congruence.
Qed.

(** [if arg: os.environ[k] = arg] either writes and goes on, or raises
    [ValueError] on an argument with a NUL and has changed nothing. *)
Lemma set_if_given_cases k arg p :
  (arg_ok arg
   ∧ ∃ p',
       set_if_given k arg p = Some (Ret (), p')
       ∧ environ p' = env_given k arg (environ p)
       ∧ log p' = log p)
  ∨ (¬ arg_ok arg
     ∧ set_if_given k arg p
       = Some (Raise (PyException "ValueError" "embedded null byte"), p)).
Proof.
  destruct arg as [[|a v]|].
  - left. split; [done|]. by exists p.
  - destruct (has_nul (String a v)) eqn:Hnul.
    + right. split; [unfold arg_ok; congruence|].
      by apply (environ_set_raises k (String a v)).
    + left. split; [done|]. by apply (environ_set_run k (String a v)).
  - left. split; [done|]. by exists p.
Qed.

(** The three assignments of [__init__]: either all are accepted and the
    rest of the constructor runs in the environment they leave, or the
    first argument with a NUL makes the constructor raise [ValueError]
    before the backend is asked. *)
Lemma init_sets_cases B public_key secret_key host p :
  (arg_ok public_key ∧ arg_ok secret_key ∧ arg_ok host
   ∧ ∃ p1,
       environ p1 = env_for_client public_key secret_key host (environ p)
       ∧ log p1 = log p
       ∧ __init__ B public_key secret_key host p
         = __init__ B None None None p1)
  ∨ (¬ (arg_ok public_key ∧ arg_ok secret_key ∧ arg_ok host)
     ∧ ∃ p1,
         __init__ B public_key secret_key host p
         = Some (Raise (PyException "ValueError" "embedded null byte"), p1)
         ∧ log p1 = log p).
Proof.
  unfold __init__.
  destruct (set_if_given_cases "LANGFUSE_PUBLIC_KEY" public_key p)
    as [(Hok1 & p1 & Hrun1 & Henv1 & Hlog1)|[Hbad Hrun1]];
    [rewrite (bind_run _ _ _ _ _ Hrun1)
    |rewrite (bind_raise _ _ _ _ _ Hrun1); right; split; [tauto|by exists p]].
  destruct (set_if_given_cases "LANGFUSE_SECRET_KEY" secret_key p1)
    as [(Hok2 & p2 & Hrun2 & Henv2 & Hlog2)|[Hbad Hrun2]];
    [rewrite (bind_run _ _ _ _ _ Hrun2)
    |rewrite (bind_raise _ _ _ _ _ Hrun2); right; split; [tauto|by exists p1]].
  destruct (set_if_given_cases "LANGFUSE_HOST" host p2)
    as [(Hok3 & p3 & Hrun3 & Henv3 & Hlog3)|[Hbad Hrun3]];
    [rewrite (bind_run _ _ _ _ _ Hrun3)
    |rewrite (bind_raise _ _ _ _ _ Hrun3); right; split;
       [tauto|exists p2; split; [done|congruence]]].
  left. do 3 (split; [done|]). exists p3.
  split; [|split; [congruence|reflexivity]].
  unfold env_for_client. by rewrite Henv3, Henv2, Henv1.
Qed.

Lemma get_langfuse_callback_returns B p :
  ∃ o records,
    get_langfuse_callback B p = Some (Ret o, add_log p records)
    ∧ (∀ h, o = Some h ↔ backend_ready B (environ p) h)
    ∧ (o = None → ∃ msg, (WARNING, msg) ∈ records).
Proof.
  unfold get_langfuse_callback, try_except, bind, extern, logger, ret,
    backend_ready, add_log, environ.
  simpl. set (env := proj1_sig <$> env_store p).
  destruct (get_client B env) as [client|e] eqn:Hclient.
  - destruct (auth_check B client) as [[|]|e] eqn:Hauth; simpl; fold env.
    + destruct (CallbackHandler B env) as [h|e] eqn:Hhandler; simpl.
      * eexists _, _. split; [reflexivity|]. split; [|done].
        intros h'. split.
        -- intros [= <-]. by exists client.
        -- intros (client' & [= <-] & _ & [= <-]). congruence.
      * destruct e; simpl; rewrite <- app_assoc;
          (eexists _, _; split; [reflexivity|]; split;
           [intros h'; split; [done|];
            intros (client' & [= <-] & _ & ?); congruence
           |intros _; eexists; apply list_elem_of_further, list_elem_of_singleton;
            reflexivity]).
    + eexists _, _. split; [reflexivity|]. split.
      * intros h'. split; [done|].
        intros (client' & [= <-] & ? & _). congruence.
      * intros _. eexists. apply list_elem_of_singleton. reflexivity.
    + destruct e; simpl;
        (eexists _, _; split; [reflexivity|]; split;
         [intros h'; split; [done|];
          intros (client' & [= <-] & ? & _); congruence
         |intros _; eexists; apply list_elem_of_singleton; reflexivity]).
  - destruct e; simpl;
      (eexists _, _; split; [reflexivity|]; split;
       [intros h'; split; [done|]; intros (client' & ? & _); congruence
       |intros _; eexists; apply list_elem_of_singleton; reflexivity]).
Qed.

(** The constructor once the environment is prepared. *)
Lemma init_from_callback B p o records :
  get_langfuse_callback B p = Some (Ret o, add_log p records) →
  __init__ B None None None p
  = Some (Ret {| callback_handler := o |},
          add_log p
            (records
             ++ [match o with
                 | None => (WARNING, "Failed to initialize Langfuse callback handler")
                 | Some _ => (INFO, "Successfully initialized Langfuse callback handler")
                 end])).
Proof.
  intros Hrun. unfold __init__.
  change (set_if_given "LANGFUSE_PUBLIC_KEY" None) with (@ret process () ()).
  change (set_if_given "LANGFUSE_SECRET_KEY" None) with (@ret process () ()).
  change (set_if_given "LANGFUSE_HOST" None) with (@ret process () ()).
  rewrite !(bind_run _ _ p () p) by done.
  rewrite (bind_run _ _ _ _ _ Hrun).
  unfold bind, logger, ret, add_log.
  destruct o; simpl; by rewrite <- app_assoc.
Qed.

(** With arguments that [os.environ] accepts the constructor returns. *)
Lemma init_returns B public_key secret_key host p :
  arg_ok public_key → arg_ok secret_key → arg_ok host →
  ∃ self records p',
    __init__ B public_key secret_key host p = Some (Ret self, p')
    ∧ environ p' = env_for_client public_key secret_key host (environ p)
    ∧ log p' = log p ++ records
    ∧ (∀ h, callback_handler self = Some h ↔ backend_ready B (environ p') h)
    ∧ (callback_handler self = None →
       (∃ msg, (WARNING, msg) ∈ removelast records)
       ∧ last records
         = Some (WARNING, "Failed to initialize Langfuse callback handler")).
Proof.
  intros Hok1 Hok2 Hok3.
  destruct (init_sets_cases B public_key secret_key host p)
    as [(_ & _ & _ & p1 & Henv & Hlog & Hrun)|[Hbad _]]; [|tauto].
  destruct (get_langfuse_callback_returns B p1)
    as (o & records & Hcb & Hready & Hwarn).
  rewrite (init_from_callback _ _ _ _ Hcb) in Hrun.
  eexists _, _, _. split; [exact Hrun|].
  rewrite environ_add_log. simpl.
  split; [done|]. split; [by rewrite Hlog|]. split; [done|].
  intros ->. rewrite removelast_last, last_snoc. split; [|done]. by apply Hwarn.
Qed.

(** When the constructor has returned, its arguments were accepted and
    the environment is the one they leave. *)
Lemma init_returned B public_key secret_key host p self p' :
  __init__ B public_key secret_key host p = Some (Ret self, p') →
  arg_ok public_key ∧ arg_ok secret_key ∧ arg_ok host
  ∧ environ p' = env_for_client public_key secret_key host (environ p).
Proof.
  intros Hrun.
  destruct (init_sets_cases B public_key secret_key host p)
    as [(Hok1 & Hok2 & Hok3 & _)|(_ & p1 & Hraise & _)]; [|congruence].
  do 3 (split; [done|]).
  destruct (init_returns B public_key secret_key host p Hok1 Hok2 Hok3)
    as (self' & records & p'' & Hrun' & Henv & _).
  congruence.
Qed.

Lemma lookup_env_given k arg env k' :
  env_given k arg env !! k'
  = if decide (k = k') then after arg (env !! k') else env !! k'.
Proof.
  destruct arg as [[|a v]|]; simpl; try by destruct (decide _).
  destruct (decide (k = k')) as [->|Hne].
  - apply lookup_insert_eq.
  - by apply lookup_insert_ne.
Qed.

Lemma lookup_env_for_client public_key secret_key host env :
  env_for_client public_key secret_key host env !! "LANGFUSE_PUBLIC_KEY"
  = after public_key (env !! "LANGFUSE_PUBLIC_KEY")
  ∧ env_for_client public_key secret_key host env !! "LANGFUSE_SECRET_KEY"
    = after secret_key (env !! "LANGFUSE_SECRET_KEY")
  ∧ env_for_client public_key secret_key host env !! "LANGFUSE_HOST"
    = after host (env !! "LANGFUSE_HOST")
  ∧ ∀ k, k ≠ "LANGFUSE_PUBLIC_KEY" → k ≠ "LANGFUSE_SECRET_KEY" →
         k ≠ "LANGFUSE_HOST" →
         env_for_client public_key secret_key host env !! k = env !! k.
Proof.
  unfold env_for_client. repeat split.
  - rewrite !lookup_env_given. by rewrite decide_False, decide_False, decide_True.
  - rewrite !lookup_env_given. by rewrite decide_False, decide_True.
  - rewrite !lookup_env_given. by rewrite decide_True.
  - intros k H1 H2 H3. rewrite !lookup_env_given. by rewrite !decide_False.
Qed.

(** With three arguments given, what the variables held before does not
    show in the environment the constructor prepares. *)
Lemma env_for_client_given public_key secret_key host env1 env2 :
  given public_key → given secret_key → given host →
  (∀ k, k ≠ "LANGFUSE_PUBLIC_KEY" → k ≠ "LANGFUSE_SECRET_KEY" →
        k ≠ "LANGFUSE_HOST" → env1 !! k = env2 !! k) →
  env_for_client public_key secret_key host env1
  = env_for_client public_key secret_key host env2.
Proof.
  intros G1 G2 G3 Hother. apply map_eq. intros k.
  unfold env_for_client. rewrite !lookup_env_given.
  destruct public_key as [[|? ?]|], secret_key as [[|? ?]|],
    host as [[|? ?]|]; try done.
  repeat case_decide; subst; try done. by apply Hother.
Qed.


(** C8, as amended. For arguments [public_key], [secret_key] and [host]
    that the environment accepts, the backend is asked for the client in
    an environment in which each of the three variables holds the
    argument if it is given and not empty, and what it held before if the
    argument is [None] or empty; no other variable differs. When all
    three are given, what the variables held before has no influence on
    the tracer, the environment or the log the constructor produces. *)
Theorem C8_nonempty_arguments_override_environment
    B public_key secret_key host p :
  arg_ok public_key → arg_ok secret_key → arg_ok host →
  (∃ self p',
     __init__ B public_key secret_key host p = Some (Ret self, p')
     ∧ (∀ h, callback_handler self = Some h
             ↔ backend_ready B (environ p') h)
     ∧ environ p' !! "LANGFUSE_PUBLIC_KEY"
       = after public_key (environ p !! "LANGFUSE_PUBLIC_KEY")
     ∧ environ p' !! "LANGFUSE_SECRET_KEY"
       = after secret_key (environ p !! "LANGFUSE_SECRET_KEY")
     ∧ environ p' !! "LANGFUSE_HOST"
       = after host (environ p !! "LANGFUSE_HOST")
     ∧ ∀ k, k ≠ "LANGFUSE_PUBLIC_KEY" → k ≠ "LANGFUSE_SECRET_KEY" →
            k ≠ "LANGFUSE_HOST" → environ p' !! k = environ p !! k)
  ∧ (given public_key → given secret_key → given host →
     after public_key None = public_key
     ∧ after secret_key None = secret_key
     ∧ after host None = host
     ∧ ∀ p2,
         log p2 = log p →
         (∀ k, k ≠ "LANGFUSE_PUBLIC_KEY" → k ≠ "LANGFUSE_SECRET_KEY" →
               k ≠ "LANGFUSE_HOST" → environ p2 !! k = environ p !! k) →
         __init__ B public_key secret_key host p2
         = __init__ B public_key secret_key host p).
Proof.
  intros Hok1 Hok2 Hok3. split.
  - destruct (init_returns B public_key secret_key host p Hok1 Hok2 Hok3)
      as (self & records & p' & Hrun & Henv & _ & Hready & _).
    exists self, p'. split; [exact Hrun|]. split; [exact Hready|].
    rewrite Henv. apply lookup_env_for_client.
  - intros G1 G2 G3.
    split; [by destruct public_key as [[|? ?]|]|].
    split; [by destruct secret_key as [[|? ?]|]|].
    split; [by destruct host as [[|? ?]|]|].
    intros p2 Hlog Hother.
    destruct (init_sets_cases B public_key secret_key host p)
      as [(_ & _ & _ & p1 & Henv1 & Hlog1 & ->)|[Hbad _]]; [|tauto].
    destruct (init_sets_cases B public_key secret_key host p2)
      as [(_ & _ & _ & p3 & Henv3 & Hlog3 & ->)|[Hbad _]]; [|tauto].
    f_equal. apply process_eq; [|congruence].
    rewrite Henv1, Henv3. by apply env_for_client_given.
Qed.

(** With a NUL in an argument that is given, the assignment to
    [os.environ] raises [ValueError]: the constructor raises, the backend
    is not asked and nothing is logged. *)
Lemma init_raises_on_nul B public_key secret_key host p :
  ¬ (arg_ok public_key ∧ arg_ok secret_key ∧ arg_ok host) →
  ∃ p1,
    __init__ B public_key secret_key host p
    = Some (Raise (PyException "ValueError" "embedded null byte"), p1)
    ∧ log p1 = log p.
Proof.
  intros Hbad.
  destruct (init_sets_cases B public_key secret_key host p)
    as [(? & ? & ? & _)|[_ Hraise]]; [tauto|done].
Qed.

(** * The claims on concrete inputs *)

(** C6 at the configuration [{"callbacks": None}]. The workflow as built
    accepts it and returns the state, on both entry points. Once traced,
    both entry points raise [TypeError] on the same arguments, before the
    executor is reached: the caller sees a different outcome. *)
Theorem C6_traced_rejects_callbacks_None :
  dicts demo_store !! 8 = Some [("callbacks", VNone)]
  ∧ call_invoke demo_pregel 1 demo_state (Some 8) demo_store
    = Some (Ret demo_state, demo_store)
  ∧ call_ainvoke demo_pregel 1 demo_state (Some 8) demo_store
    = Some (Ret demo_state, demo_store)
  ∧ ∃ s1,
      trace_workflow demo_tracer 1 demo_store = Some (1, s1, [])
      ∧ call_invoke demo_pregel 1 demo_state (Some 8) s1
        = Some (Raise (TypeError "Value after * must be an iterable"), s1)
      ∧ call_ainvoke demo_pregel 1 demo_state (Some 8) s1
        = Some (Raise (TypeError "Value after * must be an iterable"), s1).
Proof.
  split; [reflexivity|]. split; [reflexivity|]. split; [reflexivity|].
  eexists. split; [reflexivity|]. split; vm_compute; reflexivity.
Qed.


(** C8 as stated fails: the argument [public_key=""] is not [None], yet
    the environment keeps the public key it had, the client is made from
    that key and a handler is obtained; made from the argument, the
    client would have been refused. *)
Lemma C8_empty_public_key_does_not_override :
  ∃ p',
    __init__ picky_backend (Some "") (Some "sk") (Some "http://localhost:3000")
      demo_process
    = Some (Ret {| callback_handler := Some 9 |}, p')
    ∧ environ p' !! "LANGFUSE_PUBLIC_KEY" = Some "pk-from-env"
    ∧ get_client picky_backend (environ p') = Ret 1
    ∧ get_client picky_backend (<["LANGFUSE_PUBLIC_KEY" := ""]> (environ p'))
      = Raise (ConnectError "connection refused").
Proof.
  destruct (init_returns picky_backend (Some "") (Some "sk")
              (Some "http://localhost:3000") demo_process
              eq_refl eq_refl eq_refl)
    as (self & records & p' & Hrun & Henv & _ & Hready & _).
  exists p'.
  assert (environ p' !! "LANGFUSE_PUBLIC_KEY" = Some "pk-from-env") as Hpk
    by (rewrite Henv; vm_compute; reflexivity).
  assert (get_client picky_backend (environ p') = Ret 1) as Hclient
    by (simpl; by rewrite Hpk).
  assert (callback_handler self = Some 9) as Hself
    by (apply Hready; by exists 1).
  destruct self as [o]. simpl in Hself. subst o.
  do 3 (split; [done|]).
  simpl. by rewrite lookup_insert_eq.
Qed.

(** C9 as stated fails: after workflow 1 was traced, the reference 1
    still reaches its untraced [invoke] through the class. Called that
    way, the executor's entry point 0 runs on the caller's configuration
    5 as it is, and no handle is added to it; called through the
    attribute, the handle is added. *)
Lemma C9_untraced_entry_point_still_reachable :
  ∃ s',
    trace_workflow demo_tracer 1 demo_store = Some (1, s', [])
    ∧ objs demo_store !! 1 = Some demo_workflow
    ∧ invoke demo_workflow = bound_method 0
    ∧ call_class_invoke demo_pregel 1 demo_state (Some 5) s'
      = Some (demo_pregel 0 demo_state (Some 5) s')
    ∧ (∃ s2,
         call_class_invoke demo_pregel 1 demo_state (Some 5) s'
         = Some (Ret demo_state, s2)
         ∧ dicts s2 !! 5 = Some demo_config)
    ∧ (∃ s3,
         call_invoke demo_pregel 1 demo_state (Some 5) s'
         = Some (Ret demo_state, s3)
         ∧ dicts s3 !! 5
           = Some [("tags", VList [VStr "demo"]);
                   ("callbacks", VList [VObj 3; VObj 7])]).
Proof.
  eexists. split; [reflexivity|]. do 3 (split; [reflexivity|]).
  split; eexists; (split; [vm_compute; reflexivity|vm_compute; reflexivity]).
Qed.

(** C10 as stated fails: when the caller passes the empty dict 6, the
    traced [invoke] puts the handle into a new dict 10 and hands that one
    on; after the call the caller's dict is still empty. *)
Lemma C10_empty_config_is_not_updated :
  ∃ s1 s2,
    trace_workflow demo_tracer 1 demo_store = Some (1, s1, [])
    ∧ dicts s1 !! 6 = Some []
    ∧ call_invoke demo_pregel 1 demo_state (Some 6) s1
      = Some (Ret demo_state, s2)
    ∧ dicts s2 !! 6 = Some []
    ∧ dicts s2 !! 10 = Some [("callbacks", VList [VObj 7])].
Proof.
  eexists _, _. split; [reflexivity|]. split; [reflexivity|].
  split; [vm_compute; reflexivity|]. split; vm_compute; reflexivity.
Qed.

(** ** The theorems at concrete inputs *)

Lemma C1_witness :
  callback_handler noop_tracer = None
  ∧ ∃ workflow' s' records,
      trace_workflow noop_tracer 1 demo_store = Some (workflow', s', records)
      ∧ workflow' = 1
      ∧ s' = demo_store
      ∧ ∀ state config,
          call_invoke demo_pregel workflow' state config s'
          = call_invoke demo_pregel 1 state config demo_store
          ∧ call_ainvoke demo_pregel workflow' state config s'
            = call_ainvoke demo_pregel 1 state config demo_store.
Proof.
  split; [reflexivity|].
  apply (C1_no_handle_pass_through demo_pregel noop_tracer 1 demo_store).
  reflexivity.
Defined.

Lemma C2_witness :
  callback_handler demo_tracer = Some 7
  ∧ objs demo_store !! 1 = Some demo_workflow
  ∧ dicts demo_store !! 5 = Some demo_config
  ∧ dict_get "callbacks" demo_config = Some (VList [VObj 3])
  ∧ ∃ s1,
      trace_workflow demo_tracer 1 demo_store = Some (1, s1, [])
      ∧ call_invoke demo_pregel 1 demo_state (Some 5) s1
        = call demo_pregel (bound_method 0) demo_state (Some 5)
            (set_dicts
               <[5 := [("tags", VList [VStr "demo"]);
                       ("callbacks", VList [VObj 3; VObj 7])]]> s1)
      ∧ call_ainvoke demo_pregel 1 demo_state None s1
        = call demo_pregel (bound_method 1) demo_state (Some 10)
            (set_dicts <[10 := [("callbacks", VList [VObj 7])]]> s1).
Proof.
  repeat (split; [reflexivity|]).
  destruct (C2_callbacks_extended_by_handle demo_pregel demo_tracer 7 1
              demo_workflow demo_store 5 demo_config [VObj 3] demo_state
              eq_refl eq_refl eq_refl eq_refl)
    as (s1 & Htr & (_ & _ & Hi & _) & (_ & _ & Ha)).
  exists s1. split; [exact Htr|]. split; [exact Hi|].
  injection Htr as <-. exact Ha.
Defined.

Lemma C4_witness :
  callback_handler demo_tracer = Some 7
  ∧ objs demo_store !! 2 = Some failing_workflow
  ∧ ∃ s1 s2,
      trace_workflow demo_tracer 2 demo_store = Some (2, s1, [])
      ∧ add_langfuse_callbacks demo_tracer (Some 5) s1 = Some (Ret 5, s2)
      ∧ call demo_pregel (invoke failing_workflow) demo_state (Some 5) s2
        = Some (Raise (PyException "GraphRecursionError"
                         "Recursion limit reached"), s2)
      ∧ call_invoke demo_pregel 2 demo_state (Some 5) s1
        = Some (Raise (PyException "GraphRecursionError"
                         "Recursion limit reached"), s2).
Proof.
  repeat (split; [reflexivity|]).
  exists (set_objs <[2 := patched demo_tracer failing_workflow]> demo_store).
  eexists.
  assert (trace_workflow demo_tracer 2 demo_store
          = Some (2, set_objs <[2 := patched demo_tracer failing_workflow]>
                       demo_store, [])) as Htr by reflexivity.
  assert (add_langfuse_callbacks demo_tracer (Some 5)
            (set_objs <[2 := patched demo_tracer failing_workflow]> demo_store)
          = Some (Ret 5,
                  set_dicts
                    <[5 := dict_set "callbacks" (VList [VObj 3; VObj 7])
                             demo_config]>
                    (set_objs <[2 := patched demo_tracer failing_workflow]>
                       demo_store))) as Hadd by reflexivity.
  split; [exact Htr|]. split; [exact Hadd|]. split; [reflexivity|].
  exact (proj1 (proj2 (C4_outcome_forwarded demo_pregel demo_tracer 7 2
                         failing_workflow demo_store _ [] demo_state (Some 5)
                         5 _ eq_refl eq_refl Htr Hadd))
           _ _ eq_refl).
Defined.

Lemma C5_witness :
  callback_handler demo_tracer = Some 7
  ∧ objs demo_store !! 1 = Some demo_workflow
  ∧ dicts demo_store !! 5 = Some demo_config
  ∧ dict_get "callbacks" demo_config = Some (VList [VObj 3])
  ∧ ∃ sn,
      trace_workflow_n 2 demo_tracer 1 demo_store = Some (1, sn)
      ∧ length [VObj 3; VObj 7; VObj 7] = 1 + 2
      ∧ call_invoke demo_pregel 1 demo_state (Some 5) sn
        = call demo_pregel (bound_method 0) demo_state (Some 5)
            (set_dicts
               <[5 := [("tags", VList [VStr "demo"]);
                       ("callbacks", VList [VObj 3; VObj 7; VObj 7])]]> sn).
Proof.
  repeat (split; [reflexivity|]).
  destruct (C5_callbacks_grow_by_number_of_wraps demo_pregel 2 demo_tracer 7 1
              demo_workflow demo_store 5 demo_config [VObj 3] demo_state
              eq_refl eq_refl eq_refl eq_refl)
    as (sn & Hn & Hlen & _ & _ & Hi & _).
  exists sn. split; [exact Hn|]. split; [exact Hlen|]. exact Hi.
Defined.


Lemma C9_witness :
  callback_handler demo_tracer = Some 7
  ∧ objs demo_store !! 1 = Some demo_workflow
  ∧ ∃ s' w',
      trace_workflow demo_tracer 1 demo_store = Some (1, s', [])
      ∧ objs s' !! 1 = Some w'
      ∧ invoke w' = traced_invoke demo_tracer (bound_method 0)
      ∧ ainvoke w' = traced_ainvoke demo_tracer (bound_method 1)
      ∧ invoke w' ≠ bound_method 0
      ∧ ainvoke w' ≠ bound_method 1.
Proof.
  repeat (split; [reflexivity|]).
  destruct (C9_argument_patched_in_place demo_pregel demo_tracer 7 1
              demo_workflow demo_store eq_refl eq_refl)
    as (s' & w' & Htr & Hw & Hi & Ha & Hni & Hna & _).
  by exists s', w'.
Defined.


Lemma C8_witness :
  arg_ok (Some "pk-explicit") ∧ arg_ok (Some "sk")
  ∧ arg_ok (Some "http://localhost:3000")
  ∧ environ demo_process !! "LANGFUSE_PUBLIC_KEY" = Some "pk-from-env"
  ∧ ∃ self p',
      __init__ picky_backend (Some "pk-explicit") (Some "sk")
        (Some "http://localhost:3000") demo_process
      = Some (Ret self, p')
      ∧ environ p' !! "LANGFUSE_PUBLIC_KEY" = Some "pk-explicit"
      ∧ environ p' !! "LANGFUSE_SECRET_KEY" = Some "sk"
      ∧ environ p' !! "LANGFUSE_HOST" = Some "http://localhost:3000".
Proof.
  do 3 (split; [reflexivity|]).
  split; [vm_compute; reflexivity|].
  destruct (proj1 (C8_nonempty_arguments_override_environment picky_backend
                     (Some "pk-explicit") (Some "sk")
                     (Some "http://localhost:3000") demo_process
                     eq_refl eq_refl eq_refl))
    as (self & p' & Hrun & _ & H1 & H2 & H3 & _).
  exists self, p'. split; [exact Hrun|].
  split; [exact H1|]. split; [exact H2|exact H3].
Defined.

Lemma C10_witness :
  callback_handler demo_tracer = Some 7
  ∧ objs demo_store !! 1 = Some demo_workflow
  ∧ demo_config ≠ []
  ∧ ∃ s1,
      trace_workflow demo_tracer 1 demo_store = Some (1, s1, [])
      ∧ dicts s1 !! 5 = Some demo_config
      ∧ (∃ r s3,
           call_invoke demo_pregel 1 demo_state (Some 5) s1 = Some (r, s3)
           ∧ dicts s3 !! 5
             = Some [("tags", VList [VStr "demo"]);
                     ("callbacks", VList [VObj 3; VObj 7])])
      ∧ (∃ r s3,
           call_ainvoke demo_pregel 1 demo_state (Some 5) s1 = Some (r, s3)
           ∧ dicts s3 !! 5
             = Some [("tags", VList [VStr "demo"]);
                     ("callbacks", VList [VObj 3; VObj 7])]).
Proof.
  repeat (split; [done|]).
  exists (set_objs <[1 := patched demo_tracer demo_workflow]> demo_store).
  split; [reflexivity|]. split; [reflexivity|].
  destruct (C10_nonempty_config_updated_in_place demo_pregel demo_tracer 7 1
              demo_workflow 0 1 demo_store
              (set_objs <[1 := patched demo_tracer demo_workflow]> demo_store)
              [] 5 demo_config [VObj 3] demo_state
              eq_refl eq_refl eq_refl eq_refl eq_refl eq_refl
              ltac:(done) eq_refl eq_refl eq_refl)
    as (Hi & Ha & _).
  split; [exact Hi|exact Ha].
Defined.


(** * Further properties of the traced entry points *)

Lemma unpack_returns v s cs s' :
  unpack v s = Some (Ret cs, s') → s' = s ∧ non_iterable v = false.
Proof.
  destruct v; simpl; unfold ret, raise, bind, deref, stuck;
    try (intros [= _ <-]; done); try done.
  destruct (dicts s !! l); [|done]. by intros [= _ <-].
Qed.

Lemma unpack_raises v s e s' :
  unpack v s = Some (Raise e, s') →
  s' = s ∧ non_iterable v = true
  ∧ e = TypeError "Value after * must be an iterable".
Proof.
  destruct v; simpl; unfold ret, raise, bind, deref, stuck;
    try (intros [= <- <-]; done); try done.
  destruct (dicts s !! l); done.
Qed.

(** On a non-empty dict the common prefix of the closures is decided by
    the unpacking of the callbacks entry. *)
Lemma add_callbacks_nonempty_cases self c d s :
  dicts s !! c = Some d →
  d ≠ [] →
  add_langfuse_callbacks self (Some c) s
  = match unpack (default (VList []) (dict_get "callbacks" d)) s with
    | Some (Ret cs, s1) =>
        set_callbacks c (VList (cs ++ [handler_value self])) s1
        ≫= λ '(_, s2), Some (Ret c, s2)
    | Some (Raise e, s1) => Some (Raise e, s1)
    | None => None
    end.
Proof.
  intros Hc Hd. unfold add_langfuse_callbacks.
  rewrite (bind_run _ _ s c s).
  2:{ unfold config_or_new. rewrite (bind_run _ _ s d s) by by apply deref_run.
      by destruct d. }
  rewrite (bind_run _ _ s (default (VList []) (dict_get "callbacks" d)) s).
  2:{ unfold get_callbacks. by rewrite (bind_run _ _ s d s) by by apply deref_run. }
  unfold bind at 1.
  destruct (unpack _ s) as [[[cs|e] s1]|]; [|done..].
  unfold bind, set_callbacks, ret, stuck.
  by destruct (dicts s1 !! c).
Qed.

Lemma add_callbacks_dangling self c s :
  dicts s !! c = None → add_langfuse_callbacks self (Some c) s = None.
Proof.
  intros Hc. unfold add_langfuse_callbacks, config_or_new, bind, deref, stuck.
  by rewrite Hc.
Qed.

(** X1. When the common prefix of [traced_invoke] and [traced_ainvoke]
    returns, the configuration it hands on is either the caller's own
    non-empty dict or a dict that was not allocated before; that dict
    now ends its callbacks list with the handle, and no other dict and no
    workflow object has changed. *)
Theorem X1_prefix_changes_only_the_config self config s c' s' :
  add_langfuse_callbacks self config s = Some (Ret c', s') →
  objs s' = objs s
  ∧ (∀ l, l ≠ c' → dicts s' !! l = dicts s !! l)
  ∧ (∃ d' cs,
       dicts s' !! c' = Some d'
       ∧ dict_get "callbacks" d' = Some (VList (cs ++ [handler_value self])))
  ∧ ((config = Some c' ∧ ∃ d, dicts s !! c' = Some d ∧ d ≠ [])
     ∨ dicts s !! c' = None).
Proof.
  assert (∀ s0,
            add_langfuse_callbacks self None s0 = Some (Ret c', s') →
            objs s' = objs s0
            ∧ (∀ l, l ≠ c' → dicts s' !! l = dicts s0 !! l)
            ∧ (∃ d' cs,
                 dicts s' !! c' = Some d'
                 ∧ dict_get "callbacks" d'
                   = Some (VList (cs ++ [handler_value self])))
            ∧ dicts s0 !! c' = None) as Hnew.
  { intros s0. rewrite add_callbacks_None. intros [= <- <-]. simpl.
    split; [done|]. split; [intros l Hl; by rewrite lookup_insert_ne|].
    split; [|apply fresh_dict_unused].
    exists [("callbacks", VList [handler_value self])], [].
    split; [apply lookup_insert_eq|done]. }
  destruct config as [c|].
  - destruct (dicts s !! c) as [d|] eqn:Hc.
    + destruct d as [|kv d].
      * rewrite (add_callbacks_empty _ _ _ Hc). intros H.
        destruct (Hnew s H) as (? & ? & ? & ?). eauto.
      * clear Hnew.
        assert (kv :: d ≠ []) as Hd by done.
        revert Hc Hd. generalize (kv :: d). clear kv d. intros d Hc Hd.
        rewrite (add_callbacks_nonempty_cases _ _ _ _ Hc Hd).
        destruct (unpack _ s) as [[[cs|e] s1]|] eqn:Hu; [|done..].
        destruct (unpack_returns _ _ _ _ Hu) as [-> _].
        rewrite (set_callbacks_run _ _ _ _ Hc). cbn [mbind option_bind].
        intros [= <- <-]. unfold set_dicts. cbn [dicts objs].
        split; [done|].
        split; [intros l Hl; by rewrite lookup_insert_ne|].
        split.
        -- eexists _, cs. split; [apply lookup_insert_eq|apply dict_get_set_eq].
        -- left. split; [done|]. by exists d.
    + by rewrite (add_callbacks_dangling _ _ _ Hc).
  - intros H. destruct (Hnew s H) as (? & ? & ? & ?). eauto.
Qed.

(** X2. The only exception the common prefix of the closures raises is
    [TypeError], it raises it only for a configuration dict whose
    callbacks entry is present and not iterable, and it has changed
    nothing when it does. *)
Theorem X2_prefix_raises_only_TypeError self config s e s' :
  add_langfuse_callbacks self config s = Some (Raise e, s') →
  s' = s
  ∧ e = TypeError "Value after * must be an iterable"
  ∧ ∃ c d v,
      config = Some c
      ∧ dicts s !! c = Some d
      ∧ dict_get "callbacks" d = Some v
      ∧ non_iterable v = true.
Proof.
  destruct config as [c|]; [|by rewrite add_callbacks_None].
  destruct (dicts s !! c) as [d|] eqn:Hc;
    [|by rewrite (add_callbacks_dangling _ _ _ Hc)].
  destruct d as [|kv d].
  { by rewrite (add_callbacks_empty _ _ _ Hc), add_callbacks_None. }
  assert (kv :: d ≠ []) as Hd by done.
  revert Hc Hd. generalize (kv :: d). clear kv d. intros d Hc Hd.
  rewrite (add_callbacks_nonempty_cases _ _ _ _ Hc Hd).
  destruct (unpack _ s) as [[[cs|e1] s1]|] eqn:Hu; [|intros [= <- <-]|done].
  - destruct (unpack_returns _ _ _ _ Hu) as [-> _].
    by rewrite (set_callbacks_run _ _ _ _ Hc).
  - destruct (unpack_raises _ _ _ _ Hu) as (-> & Hni & ->).
    split; [done|]. split; [done|].
    destruct (dict_get "callbacks" d) as [v|] eqn:Hv; [|done].
    by exists c, d, v.
Qed.

Lemma dict_set_absent k v d : dict_get k d = None → dict_set k v d = d ++ [(k, v)].
Proof.
  induction d as [|[k0 v0] d IH]; simpl; [done|].
  destruct (decide (k0 = k)); [done|]. intros H. by rewrite IH.
Qed.

Lemma patched_lookup self workflow w s :
  objs (set_objs <[workflow := patched self w]> s) !! workflow
  = Some (patched self w).
Proof. simpl. apply lookup_insert_eq. Qed.

Section MoreCalls.

Variable pregel : nat → value → option loc → store → result value * store.

(** X3. Once a workflow is traced, a configuration dict whose callbacks
    entry is [None], a bool, an int or an object that cannot be iterated
    makes [invoke] and [ainvoke] raise [TypeError]; the executor is not
    reached, whatever it would have done, and the store is as it was. *)
Theorem X3_traced_workflow_rejects_non_iterable_callbacks
    self h workflow w s s1 records c d v state :
  callback_handler self = Some h →
  objs s !! workflow = Some w →
  trace_workflow self workflow s = Some (workflow, s1, records) →
  dicts s1 !! c = Some d →
  dict_get "callbacks" d = Some v →
  non_iterable v = true →
  call_invoke pregel workflow state (Some c) s1
  = Some (Raise (TypeError "Value after * must be an iterable"), s1)
  ∧ call_ainvoke pregel workflow state (Some c) s1
    = Some (Raise (TypeError "Value after * must be an iterable"), s1).
Proof.
  intros Hh Hw Htr Hc Hv Hni.
  rewrite (trace_workflow_present _ _ _ _ _ Hh Hw) in Htr.
  injection Htr as <- _.
  rewrite (call_invoke_lookup _ _ _ _ _ _ (patched_lookup _ _ _ _)).
  rewrite (call_ainvoke_lookup _ _ _ _ _ _ (patched_lookup _ _ _ _)).
  simpl invoke. simpl ainvoke. split.
  - by apply (traced_raises_on_non_iterable pregel self (invoke w)) with d v.
  - by apply (traced_raises_on_non_iterable pregel self (ainvoke w)) with d v.
Qed.

(** X4. Once a workflow is traced, an empty dict passed as configuration
    is never written to: the executor is called on a dict that did not
    exist before and that holds only the callbacks list [[h]], and the
    caller's dict is still empty then. *)
Theorem X4_traced_workflow_spares_empty_config
    self h workflow w s s1 records c state :
  callback_handler self = Some h →
  objs s !! workflow = Some w →
  trace_workflow self workflow s = Some (workflow, s1, records) →
  dicts s1 !! c = Some [] →
  let c' := fresh (dom (dicts s1)) in
  let s2 := set_dicts <[c' := [("callbacks", VList [VObj h])]]> s1 in
  c' ≠ c
  ∧ dicts s1 !! c' = None
  ∧ dicts s2 !! c = Some []
  ∧ call_invoke pregel workflow state (Some c) s1
    = call pregel (invoke w) state (Some c') s2
  ∧ call_ainvoke pregel workflow state (Some c) s1
    = call pregel (ainvoke w) state (Some c') s2.
Proof.
  intros Hh Hw Htr Hc.
  rewrite (trace_workflow_present _ _ _ _ _ Hh Hw) in Htr.
  injection Htr as <- _.
  pose proof (patched_lookup self workflow w s) as Hw1.
  set (s1 := set_objs _ s) in *. intros c' s2.
  assert (handler_value self = VObj h) as Hv
    by (unfold handler_value; by rewrite Hh).
  rewrite (call_invoke_lookup _ _ _ _ _ _ Hw1).
  rewrite (call_ainvoke_lookup _ _ _ _ _ _ Hw1).
  pose proof (traced_leaves_empty_config pregel self (invoke w) state c s1 Hc)
    as Hi.
  pose proof (traced_leaves_empty_config pregel self (ainvoke w) state c s1 Hc)
    as Ha.
  cbv zeta in Hi, Ha. rewrite Hv in Hi, Ha.
  destruct Hi as (Hne & Hkeep & Hi & _). destruct Ha as (_ & _ & _ & Ha).
  repeat split; [done|apply fresh_dict_unused|done..].
Qed.

(** X5. A configuration dict passed to a traced workflow twice collects
    the handle twice: if the executor leaves the dict and the workflow
    object alone, the second invocation reaches the executor with the
    callbacks list [cs ++ [h; h]]. *)
Theorem X5_config_reuse_accumulates_handles
    self h workflow w mi s s1 records c d cs state state' :
  callback_handler self = Some h →
  objs s !! workflow = Some w →
  invoke w = bound_method mi →
  trace_workflow self workflow s = Some (workflow, s1, records) →
  dicts s1 !! c = Some d →
  dict_get "callbacks" d = Some (VList cs) →
  let s2 :=
    set_dicts <[c := dict_set "callbacks" (VList (cs ++ [VObj h])) d]> s1 in
  dicts (pregel mi state (Some c) s2).2 !! c = dicts s2 !! c →
  objs (pregel mi state (Some c) s2).2 !! workflow = objs s2 !! workflow →
  ∃ r s3,
    call_invoke pregel workflow state (Some c) s1 = Some (r, s3)
    ∧ call_invoke pregel workflow state' (Some c) s3
      = Some (pregel mi state' (Some c)
                (set_dicts
                   <[c := dict_set "callbacks"
                            (VList (cs ++ [VObj h; VObj h])) d]> s3)).
Proof.
  intros Hh Hw Hmi Htr Hc Hcs s2 Hkeep Hobj.
  rewrite (trace_workflow_present _ _ _ _ _ Hh Hw) in Htr.
  injection Htr as <- _.
  pose proof (patched_lookup self workflow w s) as Hw1.
  set (s1 := set_objs _ s) in *.
  assert (handler_value self = VObj h) as Hv
    by (unfold handler_value; by rewrite Hh).
  set (d1 := dict_set "callbacks" (VList (cs ++ [VObj h])) d) in *.
  assert (add_langfuse_callbacks self (Some c) s1 = Some (Ret c, s2)) as Hadd.
  { unfold s2, d1. rewrite <- Hv. apply add_callbacks_nonempty; [done| |].
    - by eapply dict_get_Some_nonempty.
    - by rewrite Hcs. }
  assert (dicts s2 !! c = Some d1) as Hc2 by (simpl; apply lookup_insert_eq).
  assert (objs s2 !! workflow = Some (patched self w)) as Hw2
    by (simpl; apply lookup_insert_eq).
  rewrite Hc2 in Hkeep. rewrite Hw2 in Hobj.
  destruct (pregel mi state (Some c) s2) as [r s3] eqn:Hrun.
  simpl in Hkeep, Hobj.
  exists r, s3. split.
  - rewrite (call_invoke_lookup _ _ _ _ _ _ Hw1).
    simpl invoke. rewrite (call_traced_invoke _ _ _ _ _ _ _ _ Hadd), Hmi.
    simpl. by rewrite Hrun.
  - rewrite (call_invoke_lookup _ _ _ _ _ _ Hobj). simpl invoke.
    assert (add_langfuse_callbacks self (Some c) s3
            = Some (Ret c,
                    set_dicts
                      <[c := dict_set "callbacks"
                               (VList (cs ++ [VObj h; VObj h])) d]> s3))
      as Hadd3.
    { rewrite (add_callbacks_nonempty self c d1 (cs ++ [VObj h]) s3 Hkeep).
      - unfold d1. by rewrite Hv, dict_set_set, <- app_assoc.
      - eapply dict_get_Some_nonempty. apply dict_get_set_eq.
      - unfold d1. by rewrite dict_get_set_eq. }
    by rewrite (call_traced_invoke _ _ _ _ _ _ _ _ Hadd3), Hmi.
Qed.

(** X6. Tracing with one tracer and then with another nests the closures:
    on invocation the handle of the later wrap is appended first, so the
    entry point the workflow had at the start sees [cs ++ [h2; h1]]. *)
Theorem X6_later_wrap_appends_first
    t1 t2 h1 h2 workflow w s c d cs state :
  callback_handler t1 = Some h1 →
  callback_handler t2 = Some h2 →
  objs s !! workflow = Some w →
  dicts s !! c = Some d →
  dict_get "callbacks" d = Some (VList cs) →
  ∃ s1 s2,
    trace_workflow t1 workflow s = Some (workflow, s1, [])
    ∧ trace_workflow t2 workflow s1 = Some (workflow, s2, [])
    ∧ (let s3 :=
         set_dicts
           <[c := dict_set "callbacks" (VList (cs ++ [VObj h2; VObj h1])) d]>
           s2 in
       call_invoke pregel workflow state (Some c) s2
       = call pregel (invoke w) state (Some c) s3
       ∧ call_ainvoke pregel workflow state (Some c) s2
         = call pregel (ainvoke w) state (Some c) s3).
Proof.
  intros Hh1 Hh2 Hw Hc Hcs.
  eexists _, _. split; [by apply trace_workflow_present with h1|].
  split; [apply trace_workflow_present with h2; [done|apply patched_lookup]|].
  set (s1 := set_objs <[workflow := patched t1 w]> s).
  pose proof (patched_lookup t2 workflow (patched t1 w) s1) as Hw2.
  set (s2 := set_objs _ s1) in *. cbv zeta.
  assert (handler_value t1 = VObj h1) as Hv1
    by (unfold handler_value; by rewrite Hh1).
  assert (handler_value t2 = VObj h2) as Hv2
    by (unfold handler_value; by rewrite Hh2).
  set (d2 := dict_set "callbacks" (VList (cs ++ [VObj h2])) d).
  assert (add_langfuse_callbacks t2 (Some c) s2
          = Some (Ret c, set_dicts <[c := d2]> s2)) as Hadd2.
  { unfold d2. rewrite <- Hv2. apply add_callbacks_nonempty; [done| |].
    - by eapply dict_get_Some_nonempty.
    - by rewrite Hcs. }
  assert (add_langfuse_callbacks t1 (Some c) (set_dicts <[c := d2]> s2)
          = Some (Ret c,
                  set_dicts
                    <[c := dict_set "callbacks"
                             (VList (cs ++ [VObj h2; VObj h1])) d]> s2))
    as Hadd1.
  { rewrite (add_callbacks_nonempty t1 c d2 (cs ++ [VObj h2])).
    - f_equal. f_equal. apply store_eq; simpl; [|done..].
      rewrite insert_insert_eq. unfold d2.
      by rewrite Hv1, dict_set_set, <- app_assoc.
    - simpl. apply lookup_insert_eq.
    - eapply dict_get_Some_nonempty. apply dict_get_set_eq.
    - unfold d2. by rewrite dict_get_set_eq. }
  rewrite (call_invoke_lookup _ _ _ _ _ _ Hw2).
  rewrite (call_ainvoke_lookup _ _ _ _ _ _ Hw2).
  simpl invoke. simpl ainvoke.
  rewrite (call_traced_invoke _ _ _ _ _ _ _ _ Hadd2).
  rewrite (call_traced_ainvoke _ _ _ _ _ _ _ _ Hadd2).
  rewrite (call_traced_invoke _ _ _ _ _ _ _ _ Hadd1).
  by rewrite (call_traced_ainvoke _ _ _ _ _ _ _ _ Hadd1).
Qed.

End MoreCalls.

Section MoreWraps.

Variable pregel : nat → value → option loc → store → result value * store.

(** X7. After [n + 1] applications of [trace_workflow] with a handle, an
    invocation without a configuration reaches the entry point the
    workflow had at the start with a dict that did not exist before and
    that holds nothing but a callbacks list of [n + 1] copies of the
    handle. *)
Theorem X7_wraps_without_config n self h workflow w s state :
  callback_handler self = Some h →
  objs s !! workflow = Some w →
  ∃ sn,
    trace_workflow_n (S n) self workflow s = Some (workflow, sn)
    ∧ (let c' := fresh (dom (dicts sn)) in
       let s' :=
         set_dicts
           <[c' := [("callbacks", VList (replicate (S n) (VObj h)))]]> sn in
       dicts sn !! c' = None
       ∧ call_invoke pregel workflow state None sn
         = call pregel (invoke w) state (Some c') s'
       ∧ call_ainvoke pregel workflow state None sn
         = call pregel (ainvoke w) state (Some c') s').
Proof.
  intros Hh Hw.
  destruct (trace_workflow_n_present (S n) _ _ _ _ _ Hh Hw)
    as (sn & Hn & _ & Ho).
  exists sn. split; [done|]. cbv zeta.
  split; [apply fresh_dict_unused|].
  assert (handler_value self = VObj h) as Hv
    by (unfold handler_value; by rewrite Hh).
  rewrite (call_invoke_lookup _ _ _ _ _ _ Ho).
  rewrite (call_ainvoke_lookup _ _ _ _ _ _ Ho).
  change (Nat.iter (S n) (patched self) w)
    with (patched self (Nat.iter n (patched self) w)).
  simpl invoke. simpl ainvoke.
  pose proof (add_callbacks_None self sn) as Hadd.
  set (c' := fresh (dom (dicts sn))) in *.
  set (s1 := set_dicts _ sn) in Hadd.
  rewrite (call_traced_invoke _ _ _ _ _ _ _ _ Hadd).
  rewrite (call_traced_ainvoke _ _ _ _ _ _ _ _ Hadd).
  assert (dicts s1 !! c' = Some [("callbacks", VList [handler_value self])])
    as Hc1 by (simpl; apply lookup_insert_eq).
  pose proof (call_wrapped_n pregel self n w state c' _ [handler_value self]
                s1 Hc1 eq_refl) as Hcall.
  cbv zeta in Hcall.
  assert (set_dicts
            <[c' := dict_set "callbacks"
                      (VList ([handler_value self]
                              ++ replicate n (handler_value self)))
                      [("callbacks", VList [handler_value self])]]> s1
          = set_dicts
              <[c' := [("callbacks", VList (replicate (S n) (VObj h)))]]> sn)
    as Heq.
  { apply store_eq; simpl; [|done..]. rewrite insert_insert_eq.
    by rewrite Hv. }
  by rewrite Heq in Hcall.
Qed.

(** X8. A configuration dict that is not empty and has no callbacks key
    keeps its entries in their order and gets one more, last: the
    callbacks list [[h]]. *)
Theorem X8_config_without_callbacks_key
    self h workflow w s s1 records c d state :
  callback_handler self = Some h →
  objs s !! workflow = Some w →
  trace_workflow self workflow s = Some (workflow, s1, records) →
  dicts s1 !! c = Some d →
  d ≠ [] →
  dict_get "callbacks" d = None →
  let s2 := set_dicts <[c := d ++ [("callbacks", VList [VObj h])]]> s1 in
  call_invoke pregel workflow state (Some c) s1
  = call pregel (invoke w) state (Some c) s2
  ∧ call_ainvoke pregel workflow state (Some c) s1
    = call pregel (ainvoke w) state (Some c) s2.
Proof.
  intros Hh Hw Htr Hc Hd Hcs s2.
  rewrite (trace_workflow_present _ _ _ _ _ Hh Hw) in Htr.
  injection Htr as <- _.
  pose proof (patched_lookup self workflow w s) as Hw1.
  set (s1 := set_objs _ s) in *.
  assert (handler_value self = VObj h) as Hv
    by (unfold handler_value; by rewrite Hh).
  assert (add_langfuse_callbacks self (Some c) s1 = Some (Ret c, s2)) as Hadd.
  { rewrite (add_callbacks_nonempty self c d [] s1 Hc Hd).
    - unfold s2. by rewrite Hv, (dict_set_absent _ _ _ Hcs).
    - by rewrite Hcs. }
  rewrite (call_invoke_lookup _ _ _ _ _ _ Hw1).
  rewrite (call_ainvoke_lookup _ _ _ _ _ _ Hw1).
  simpl invoke. simpl ainvoke.
  rewrite (call_traced_invoke _ _ _ _ _ _ _ _ Hadd).
  by rewrite (call_traced_ainvoke _ _ _ _ _ _ _ _ Hadd).
Qed.

End MoreWraps.


(** * Further properties of the construction *)

(** Exact outcomes of [get_langfuse_callback]. *)
Lemma callback_when_client_raises B p e :
  get_client B (environ p) = Raise e →
  get_langfuse_callback B p = Some (Ret None, add_log p [init_warning e]).
Proof.
  intros H. unfold get_langfuse_callback, try_except, bind, extern.
  rewrite H. by destruct e.
Qed.

Lemma callback_when_auth_raises B p client e :
  get_client B (environ p) = Ret client →
  auth_check B client = Raise e →
  get_langfuse_callback B p = Some (Ret None, add_log p [init_warning e]).
Proof.
  intros H1 H2. unfold get_langfuse_callback, try_except, bind, extern.
  rewrite H1, H2. by destruct e.
Qed.

Lemma callback_when_auth_fails B p client :
  get_client B (environ p) = Ret client →
  auth_check B client = Ret false →
  get_langfuse_callback B p
  = Some (Ret None,
          add_log p
            [(WARNING, "Langfuse authentication failed. Please check your credentials.")]).
Proof.
  intros H1 H2. unfold get_langfuse_callback, try_except, bind, extern.
  by rewrite H1, H2.
Qed.

Lemma callback_when_handler_raises B p client e :
  get_client B (environ p) = Ret client →
  auth_check B client = Ret true →
  CallbackHandler B (environ p) = Raise e →
  get_langfuse_callback B p
  = Some (Ret None,
          add_log p
            [(INFO, "Langfuse client is authenticated and ready!");
             init_warning e]).
Proof.
  intros H1 H2 H3.
  unfold get_langfuse_callback, try_except, bind, extern, logger, ret, add_log.
  rewrite H1, H2. unfold environ in *. simpl. rewrite H3.
  destruct e; simpl; by rewrite <- app_assoc.
Qed.

Lemma callback_when_ready B p h :
  backend_ready B (environ p) h →
  get_langfuse_callback B p
  = Some (Ret (Some h),
          add_log p [(INFO, "Langfuse client is authenticated and ready!")]).
Proof.
  intros (client & H1 & H2 & H3).
  unfold get_langfuse_callback, try_except, bind, extern, logger, ret, add_log.
  rewrite H1, H2. unfold environ in *. simpl. by rewrite H3.
Qed.

(** The constructor, from the outcome of [get_langfuse_callback] in the
    environment the arguments leave. *)
Lemma init_exact B public_key secret_key host p o records :
  arg_ok public_key → arg_ok secret_key → arg_ok host →
  (∀ p1,
     environ p1 = env_for_client public_key secret_key host (environ p) →
     get_langfuse_callback B p1 = Some (Ret o, add_log p1 records)) →
  ∃ p',
    __init__ B public_key secret_key host p
    = Some (Ret {| callback_handler := o |}, p')
    ∧ environ p' = env_for_client public_key secret_key host (environ p)
    ∧ log p'
      = log p ++ records
        ++ [match o with
            | None => (WARNING, "Failed to initialize Langfuse callback handler")
            | Some _ => (INFO, "Successfully initialized Langfuse callback handler")
            end].
Proof.
  intros Hok1 Hok2 Hok3 Hcb.
  destruct (init_sets_cases B public_key secret_key host p)
    as [(_ & _ & _ & p1 & Henv & Hlog & Hrun)|[Hbad _]]; [|tauto].
  rewrite (init_from_callback _ _ _ _ (Hcb p1 Henv)) in Hrun.
  eexists. split; [exact Hrun|]. rewrite environ_add_log. simpl.
  split; [done|]. by rewrite Hlog.
Qed.

(** X9. The constructor writes to the environment and nowhere else than
    at the three Langfuse variables: each of them holds the argument if
    one was given and is not empty, and what it held before otherwise;
    every other variable is as it was. The change outlives the call. *)
Theorem X9_constructor_environment B public_key secret_key host p self p' :
  __init__ B public_key secret_key host p = Some (Ret self, p') →
  let after (arg : option string) (before : option string) :=
    match arg with
    | Some (String a v) => Some (String a v)
    | Some EmptyString | None => before
    end in
  environ p' !! "LANGFUSE_PUBLIC_KEY"
  = after public_key (environ p !! "LANGFUSE_PUBLIC_KEY")
  ∧ environ p' !! "LANGFUSE_SECRET_KEY"
    = after secret_key (environ p !! "LANGFUSE_SECRET_KEY")
  ∧ environ p' !! "LANGFUSE_HOST" = after host (environ p !! "LANGFUSE_HOST")
  ∧ ∀ k, k ≠ "LANGFUSE_PUBLIC_KEY" → k ≠ "LANGFUSE_SECRET_KEY" →
         k ≠ "LANGFUSE_HOST" → environ p' !! k = environ p !! k.
Proof.
  intros Hrun after0.
  destruct (init_returned _ _ _ _ _ _ _ Hrun) as (_ & _ & _ & ->).
  apply lookup_env_for_client.
Qed.

Lemma env_for_client_again public_key secret_key host env :
  env_for_client public_key secret_key host
    (env_for_client public_key secret_key host env)
  = env_for_client public_key secret_key host env.
Proof.
  apply map_eq. intros k. unfold env_for_client. rewrite !lookup_env_given.
  destruct public_key as [[|? ?]|], secret_key as [[|? ?]|], host as [[|? ?]|];
    repeat case_decide; done.
Qed.

(** X10. What a constructor call wrote to the environment is what later
    constructor calls find: after a tracer was built from some arguments,
    building a tracer without arguments is building it from those
    arguments again, for whatever backend. *)
Theorem X10_credentials_persist_for_later_tracers
    B public_key secret_key host p self p' :
  __init__ B public_key secret_key host p = Some (Ret self, p') →
  ∀ B2,
    __init__ B2 None None None p'
    = __init__ B2 public_key secret_key host p'.
Proof.
  intros Hrun B2.
  destruct (init_returned _ _ _ _ _ _ _ Hrun) as (Hok1 & Hok2 & Hok3 & Henv).
  destruct (init_sets_cases B2 public_key secret_key host p')
    as [(_ & _ & _ & p1 & Henv1 & Hlog1 & ->)|[Hbad _]]; [|tauto].
  f_equal. apply process_eq; [|done].
  by rewrite Henv1, Henv, env_for_client_again.
Qed.

(** X11. With arguments that the environment accepts, when the backend
    delivers a handler, the constructor returns a tracer holding it and
    logs two INFO records and no warning. *)
Theorem X11_success_logs_no_warning B public_key secret_key host p h :
  arg_ok public_key → arg_ok secret_key → arg_ok host →
  let env' := env_for_client public_key secret_key host (environ p) in
  backend_ready B env' h →
  ∃ p',
    __init__ B public_key secret_key host p
    = Some (Ret {| callback_handler := Some h |}, p')
    ∧ environ p' = env'
    ∧ log p'
      = log p
        ++ [(INFO, "Langfuse client is authenticated and ready!");
            (INFO, "Successfully initialized Langfuse callback handler")].
Proof.
  intros Hok1 Hok2 Hok3 env' Hready.
  apply (init_exact B public_key secret_key host p (Some h)
           [(INFO, "Langfuse client is authenticated and ready!")]
           Hok1 Hok2 Hok3).
  intros p1 Henv. apply callback_when_ready. by rewrite Henv.
Qed.

(** X12. What the constructor logs, with arguments that the environment
    accepts, when the backend fails. An exception from [get_client] or
    [auth_check] gives one warning that names a connection error for
    [ConnectError] and an unexpected error for every other exception,
    with the exception's text; a refused authentication gives the
    authentication warning; an exception from the handler's constructor
    comes after the INFO record that the client is ready. In each case
    the warning that the handler could not be initialized follows and the
    tracer holds no handler. *)
Theorem X12_failure_log B public_key secret_key host p :
  arg_ok public_key → arg_ok secret_key → arg_ok host →
  let env' := env_for_client public_key secret_key host (environ p) in
  let failed records :=
    ∃ p',
      __init__ B public_key secret_key host p
      = Some (Ret {| callback_handler := None |}, p')
      ∧ environ p' = env'
      ∧ log p'
        = log p ++ records
          ++ [(WARNING, "Failed to initialize Langfuse callback handler")] in
  (∀ e, get_client B env' = Raise e → failed [init_warning e])
  ∧ (∀ client e,
       get_client B env' = Ret client → auth_check B client = Raise e →
       failed [init_warning e])
  ∧ (∀ client,
       get_client B env' = Ret client → auth_check B client = Ret false →
       failed [(WARNING, "Langfuse authentication failed. Please check your credentials.")])
  ∧ (∀ client e,
       get_client B env' = Ret client → auth_check B client = Ret true →
       CallbackHandler B env' = Raise e →
       failed [(INFO, "Langfuse client is authenticated and ready!");
               init_warning e]).
Proof.
  intros Hok1 Hok2 Hok3 env' failed. unfold failed.
  split; [|split; [|split]].
  - intros e H.
    apply (init_exact B public_key secret_key host p None _ Hok1 Hok2 Hok3).
    intros p1 Henv. apply callback_when_client_raises. by rewrite Henv.
  - intros client e H1 H2.
    apply (init_exact B public_key secret_key host p None _ Hok1 Hok2 Hok3).
    intros p1 Henv. apply callback_when_auth_raises with client; [|done].
    by rewrite Henv.
  - intros client H1 H2.
    apply (init_exact B public_key secret_key host p None _ Hok1 Hok2 Hok3).
    intros p1 Henv. apply callback_when_auth_fails with client; [|done].
    by rewrite Henv.
  - intros client e H1 H2 H3.
    apply (init_exact B public_key secret_key host p None _ Hok1 Hok2 Hok3).
    intros p1 Henv. apply callback_when_handler_raises with client;
      [by rewrite Henv|done|by rewrite Henv].
Qed.

(** * The demo scripts *)

Lemma script_environment env :
  env_for_client (env !! "LANGFUSE_PUBLIC_KEY") (env !! "LANGFUSE_SECRET_KEY")
    (Some (default "http://localhost:3000" (env !! "LANGFUSE_HOST"))) env
  = match env !! "LANGFUSE_HOST" with
    | None => <["LANGFUSE_HOST" := "http://localhost:3000"]> env
    | Some _ => env
    end.
Proof.
  apply map_eq. intros k. unfold env_for_client. rewrite !lookup_env_given.
  destruct (env !! "LANGFUSE_HOST") as [[|? ?]|] eqn:Hhost;
    destruct (env !! "LANGFUSE_PUBLIC_KEY") as [[|? ?]|] eqn:Hpk;
    destruct (env !! "LANGFUSE_SECRET_KEY") as [[|? ?]|] eqn:Hsk;
    simpl; repeat case_decide; subst;
    rewrite ?lookup_insert_eq, ?lookup_insert_ne by done; congruence.
Qed.

(** What the scripts read from the environment, the environment accepts
    back. *)
Lemma script_args_ok p :
  arg_ok (environ p !! "LANGFUSE_PUBLIC_KEY")
  ∧ arg_ok (environ p !! "LANGFUSE_SECRET_KEY")
  ∧ arg_ok (Some (default "http://localhost:3000"
                    (environ p !! "LANGFUSE_HOST"))).
Proof.
  repeat split.
  - destruct (environ p !! "LANGFUSE_PUBLIC_KEY") as [v|] eqn:Hv; [|done].
    by apply has_nul_environ in Hv.
  - destruct (environ p !! "LANGFUSE_SECRET_KEY") as [v|] eqn:Hv; [|done].
    by apply has_nul_environ in Hv.
  - destruct (environ p !! "LANGFUSE_HOST") as [v|] eqn:Hv; [|done].
    by apply has_nul_environ in Hv.
Qed.

(** X13. The tracer as the demo scripts build it changes the environment
    in one case only: when LANGFUSE_HOST is not set, it is set to
    "http://localhost:3000". Keys read from the environment are written
    back as they are, and a LANGFUSE_HOST that is set, even to the empty
    string, stays. *)
Theorem X13_script_defaults_the_host B p self p' :
  script_tracer B p = Some (Ret self, p') →
  environ p'
  = match environ p !! "LANGFUSE_HOST" with
    | None => <["LANGFUSE_HOST" := "http://localhost:3000"]> (environ p)
    | Some _ => environ p
    end.
Proof.
  unfold script_tracer. intros Hrun.
  destruct (init_returned _ _ _ _ _ _ _ Hrun) as (_ & _ & _ & ->).
  apply script_environment.
Qed.

Section Scripts.

Variable pregel : nat → value → option loc → store → result value * store.

(** X14. When the backend delivers no handler, the script's invocation is
    the invocation of the untraced application without a configuration:
    same outcome, same store. The last record of the log is the warning
    of [trace_workflow] that the workflow is returned without tracing. *)
Theorem X14_script_runs_untraced_when_backend_fails B app state p s :
  let env' :=
    match environ p !! "LANGFUSE_HOST" with
    | None => <["LANGFUSE_HOST" := "http://localhost:3000"]> (environ p)
    | Some _ => environ p
    end in
  (∀ h, ¬ backend_ready B env' h) →
  ∃ p',
    script_run pregel B app state p s
    = match call_invoke pregel app state None s with
      | Some (result, s') => Some (result, p', s')
      | None => None
      end
    ∧ environ p' = env'
    ∧ last (log p')
      = Some (WARNING, "Langfuse callback handler not available. Returning original workflow without tracing.").
Proof.
  intros env' Hdown. unfold script_run, script_tracer.
  destruct (script_args_ok p) as (Hok1 & Hok2 & Hok3).
  destruct (init_returns B (environ p !! "LANGFUSE_PUBLIC_KEY")
              (environ p !! "LANGFUSE_SECRET_KEY")
              (Some (default "http://localhost:3000"
                       (environ p !! "LANGFUSE_HOST"))) p Hok1 Hok2 Hok3)
    as (self & records & p1 & Hrun & Henv & _ & Hready & _).
  rewrite script_environment in Henv. fold env' in Henv.
  rewrite Hrun.
  assert (callback_handler self = None) as Hnone.
  { destruct (callback_handler self) as [h|] eqn:Hh; [|done].
    destruct (Hdown h). rewrite <- Henv. by apply Hready. }
  unfold trace_workflow. rewrite Hnone.
  eexists. split; [reflexivity|]. simpl. split; [done|].
  by rewrite last_snoc.
Qed.

(** X15. When the backend delivers a handler [h], the script's invocation
    reaches the entry point of the application with the state and with a
    dict that did not exist before, holding only the callbacks list
    [[h]]; the application object has been patched, and the log has
    gained the two INFO records of the construction and nothing else. *)
Theorem X15_script_runs_traced_when_backend_ready B app w state p s h :
  let env' :=
    match environ p !! "LANGFUSE_HOST" with
    | None => <["LANGFUSE_HOST" := "http://localhost:3000"]> (environ p)
    | Some _ => environ p
    end in
  backend_ready B env' h →
  objs s !! app = Some w →
  let tracer := {| callback_handler := Some h |} in
  let s1 := set_objs <[app := patched tracer w]> s in
  let c' := fresh (dom (dicts s)) in
  let s2 := set_dicts <[c' := [("callbacks", VList [VObj h])]]> s1 in
  dicts s !! c' = None
  ∧ ∃ p',
      environ p' = env'
      ∧ log p'
        = log p
          ++ [(INFO, "Langfuse client is authenticated and ready!");
              (INFO, "Successfully initialized Langfuse callback handler")]
      ∧ script_run pregel B app state p s
        = match call pregel (invoke w) state (Some c') s2 with
          | Some (result, s') => Some (result, p', s')
          | None => None
          end.
Proof.
  intros env' Hready Hw tracer s1 c' s2.
  split; [apply fresh_dict_unused|].
  unfold script_run, script_tracer.
  destruct (script_args_ok p) as (Hok1 & Hok2 & Hok3).
  destruct (init_exact B (environ p !! "LANGFUSE_PUBLIC_KEY")
              (environ p !! "LANGFUSE_SECRET_KEY")
              (Some (default "http://localhost:3000"
                       (environ p !! "LANGFUSE_HOST"))) p (Some h)
              [(INFO, "Langfuse client is authenticated and ready!")]
              Hok1 Hok2 Hok3)
    as (p1 & Hrun & Henv & Hlog).
  { intros p1 Henv. apply callback_when_ready.
    rewrite Henv, script_environment. exact Hready. }
  rewrite script_environment in Henv. fold env' in Henv.
  rewrite Hrun. cbv beta iota. fold tracer.
  rewrite (trace_workflow_present tracer h app w s eq_refl Hw).
  fold s1. cbv beta iota zeta.
  exists {| env_store := env_store p1; log := log p1 ++ [] |}.
  split; [exact Henv|]. split; [simpl; by rewrite app_nil_r, Hlog|].
  rewrite (call_invoke_lookup _ _ _ _ _ _ (patched_lookup tracer app w s)).
  simpl invoke.
  rewrite (call_traced_invoke _ _ _ _ _ _ _ _ (add_callbacks_None tracer s1)).
  change (dicts s1) with (dicts s). fold c'.
  change (handler_value tracer) with (VObj h). fold s2.
  by destruct (call pregel (invoke w) state (Some c') s2) as [[r s']|].
Qed.

End Scripts.

(** * The further properties at concrete inputs *)

Lemma X1_witness :
  ∃ s',
    add_langfuse_callbacks demo_tracer (Some 5) demo_store = Some (Ret 5, s')
    ∧ objs s' = objs demo_store
    ∧ (∀ l, l ≠ 5 → dicts s' !! l = dicts demo_store !! l).
Proof.
  eexists. split; [reflexivity|].
  destruct (X1_prefix_changes_only_the_config demo_tracer (Some 5) demo_store
              5 _ eq_refl) as (Hobjs & Hdicts & _).
  split; [exact Hobjs|exact Hdicts].
Defined.

Lemma X2_witness :
  add_langfuse_callbacks demo_tracer (Some 8) demo_store
  = Some (Raise (TypeError "Value after * must be an iterable"), demo_store)
  ∧ ∃ c d v,
      Some 8 = Some c
      ∧ dicts demo_store !! c = Some d
      ∧ dict_get "callbacks" d = Some v
      ∧ non_iterable v = true.
Proof.
  split; [reflexivity|].
  exact (proj2 (proj2 (X2_prefix_raises_only_TypeError demo_tracer (Some 8)
                         demo_store _ demo_store eq_refl))).
Defined.

Lemma X3_witness :
  callback_handler demo_tracer = Some 7
  ∧ dicts demo_store !! 8 = Some [("callbacks", VNone)]
  ∧ ∃ s1,
      trace_workflow demo_tracer 1 demo_store = Some (1, s1, [])
      ∧ call_invoke demo_pregel 1 demo_state (Some 8) s1
        = Some (Raise (TypeError "Value after * must be an iterable"), s1)
      ∧ call_ainvoke demo_pregel 1 demo_state (Some 8) s1
        = Some (Raise (TypeError "Value after * must be an iterable"), s1).
Proof.
  do 2 (split; [reflexivity|]).
  eexists. split; [reflexivity|].
  exact (X3_traced_workflow_rejects_non_iterable_callbacks demo_pregel
           demo_tracer 7 1 demo_workflow demo_store _ [] 8
           [("callbacks", VNone)] VNone demo_state
           eq_refl eq_refl eq_refl eq_refl eq_refl eq_refl).
Defined.

Lemma X4_witness :
  callback_handler demo_tracer = Some 7
  ∧ ∃ s1,
      trace_workflow demo_tracer 1 demo_store = Some (1, s1, [])
      ∧ dicts s1 !! 6 = Some []
      ∧ call_invoke demo_pregel 1 demo_state (Some 6) s1
        = call demo_pregel (bound_method 0) demo_state (Some 10)
            (set_dicts <[10 := [("callbacks", VList [VObj 7])]]> s1).
Proof.
  split; [reflexivity|].
  eexists. split; [reflexivity|]. split; [reflexivity|].
  pose proof (X4_traced_workflow_spares_empty_config demo_pregel demo_tracer
                7 1 demo_workflow demo_store _ [] 6 demo_state
                eq_refl eq_refl eq_refl eq_refl) as H.
  cbv zeta in H. exact (proj1 (proj2 (proj2 (proj2 H)))).
Defined.

Lemma X5_witness :
  callback_handler demo_tracer = Some 7
  ∧ ∃ s1 r s3,
      trace_workflow demo_tracer 1 demo_store = Some (1, s1, [])
      ∧ call_invoke demo_pregel 1 demo_state (Some 5) s1 = Some (r, s3)
      ∧ call_invoke demo_pregel 1 demo_state (Some 5) s3
        = Some (demo_pregel 0 demo_state (Some 5)
                  (set_dicts
                     <[5 := dict_set "callbacks"
                              (VList ([VObj 3] ++ [VObj 7; VObj 7]))
                              demo_config]> s3)).
Proof.
  split; [reflexivity|].
  eexists.
  pose proof (X5_config_reuse_accumulates_handles demo_pregel demo_tracer 7 1
                demo_workflow 0 demo_store _ [] 5 demo_config [VObj 3]
                demo_state demo_state
                eq_refl eq_refl eq_refl eq_refl eq_refl eq_refl) as H.
  cbv zeta in H. destruct (H eq_refl eq_refl) as (r & s3 & H1 & H2).
  exists r, s3. split; [reflexivity|]. split; [exact H1|exact H2].
Defined.

Lemma X6_witness :
  callback_handler demo_tracer = Some 7
  ∧ callback_handler second_tracer = Some 11
  ∧ ∃ s1 s2,
      trace_workflow demo_tracer 1 demo_store = Some (1, s1, [])
      ∧ trace_workflow second_tracer 1 s1 = Some (1, s2, [])
      ∧ call_invoke demo_pregel 1 demo_state (Some 5) s2
        = call demo_pregel (bound_method 0) demo_state (Some 5)
            (set_dicts
               <[5 := [("tags", VList [VStr "demo"]);
                       ("callbacks", VList [VObj 3; VObj 11; VObj 7])]]> s2).
Proof.
  do 2 (split; [reflexivity|]).
  destruct (X6_later_wrap_appends_first demo_pregel demo_tracer second_tracer
              7 11 1 demo_workflow demo_store 5 demo_config [VObj 3]
              demo_state eq_refl eq_refl eq_refl eq_refl eq_refl)
    as (s1 & s2 & H1 & H2 & H3 & _).
  exists s1, s2. split; [exact H1|]. split; [exact H2|exact H3].
Defined.

Lemma X7_witness :
  callback_handler demo_tracer = Some 7
  ∧ ∃ sn,
      trace_workflow_n 2 demo_tracer 1 demo_store = Some (1, sn)
      ∧ call_invoke demo_pregel 1 demo_state None sn
        = call demo_pregel (bound_method 0) demo_state
            (Some (fresh (dom (dicts sn))))
            (set_dicts
               <[fresh (dom (dicts sn))
                 := [("callbacks", VList [VObj 7; VObj 7])]]> sn).
Proof.
  split; [reflexivity|].
  destruct (X7_wraps_without_config demo_pregel 1 demo_tracer 7 1
              demo_workflow demo_store demo_state eq_refl eq_refl)
    as (sn & Hn & _ & Hi & _).
  exists sn. split; [exact Hn|exact Hi].
Defined.

Lemma X8_witness :
  callback_handler demo_tracer = Some 7
  ∧ dict_get "callbacks" [("messages", VList [VStr "hello"])] = None
  ∧ ∃ s1,
      trace_workflow demo_tracer 1 demo_store = Some (1, s1, [])
      ∧ dicts s1 !! 9 = Some [("messages", VList [VStr "hello"])]
      ∧ call_invoke demo_pregel 1 demo_state (Some 9) s1
        = call demo_pregel (bound_method 0) demo_state (Some 9)
            (set_dicts
               <[9 := [("messages", VList [VStr "hello"]);
                       ("callbacks", VList [VObj 7])]]> s1).
Proof.
  do 2 (split; [reflexivity|]).
  eexists. split; [reflexivity|]. split; [reflexivity|].
  pose proof (X8_config_without_callbacks_key demo_pregel demo_tracer 7 1
                demo_workflow demo_store _ [] 9
                [("messages", VList [VStr "hello"])] demo_state
                eq_refl eq_refl eq_refl eq_refl ltac:(done) eq_refl) as H.
  cbv zeta in H. exact (proj1 H).
Defined.


Lemma picky_backend_ready : backend_ready picky_backend (environ demo_process) 9.
Proof. exists 1. repeat split; vm_compute; reflexivity. Defined.

Lemma picky_backend_down h :
  ¬ backend_ready picky_backend
      (<["LANGFUSE_HOST" := "http://localhost:3000"]> (environ empty_process)) h.
Proof. intros (client & H & _). vm_compute in H. discriminate. Defined.

Lemma X9_witness :
  ∃ self p',
    __init__ picky_backend (Some "pk-explicit") None (Some "") demo_process
    = Some (Ret self, p')
    ∧ environ p' !! "LANGFUSE_PUBLIC_KEY" = Some "pk-explicit"
    ∧ environ p' !! "LANGFUSE_SECRET_KEY" = None
    ∧ environ p' !! "LANGFUSE_HOST" = None.
Proof.
  destruct (init_returns picky_backend (Some "pk-explicit") None (Some "")
              demo_process eq_refl I eq_refl)
    as (self & records & p' & Hrun & _).
  exists self, p'. split; [exact Hrun|].
  pose proof (X9_constructor_environment picky_backend (Some "pk-explicit")
                None (Some "") demo_process self p' Hrun) as H.
  cbv zeta in H. destruct H as (H1 & H2 & H3 & _).
  split; [exact H1|]. split; [exact H2|exact H3].
Defined.

Lemma X10_witness :
  ∃ self p',
    __init__ picky_backend (Some "pk-explicit") None None demo_process
    = Some (Ret self, p')
    ∧ __init__ picky_backend None None None p'
      = __init__ picky_backend (Some "pk-explicit") None None p'.
Proof.
  destruct (init_returns picky_backend (Some "pk-explicit") None None
              demo_process eq_refl I I)
    as (self & records & p' & Hrun & _).
  exists self, p'. split; [exact Hrun|].
  exact (X10_credentials_persist_for_later_tracers picky_backend
           (Some "pk-explicit") None None demo_process self p' Hrun
           picky_backend).
Defined.

Lemma X11_witness :
  arg_ok None
  ∧ backend_ready picky_backend (environ demo_process) 9
  ∧ ∃ p',
      __init__ picky_backend None None None demo_process
      = Some (Ret {| callback_handler := Some 9 |}, p')
      ∧ environ p' = environ demo_process
      ∧ log p'
        = [(INFO, "Langfuse client is authenticated and ready!");
           (INFO, "Successfully initialized Langfuse callback handler")].
Proof.
  split; [exact I|]. split; [exact picky_backend_ready|].
  exact (X11_success_logs_no_warning picky_backend None None None demo_process
           9 I I I picky_backend_ready).
Defined.

Lemma X12_witness :
  arg_ok None
  ∧ get_client picky_backend (environ empty_process)
    = Raise (ConnectError "connection refused")
  ∧ ∃ p',
      __init__ picky_backend None None None empty_process
      = Some (Ret {| callback_handler := None |}, p')
      ∧ environ p' = environ empty_process
      ∧ log p'
        = [(WARNING, "Connection error initializing Langfuse: connection refused");
           (WARNING, "Failed to initialize Langfuse callback handler")].
Proof.
  split; [exact I|]. split; [vm_compute; reflexivity|].
  pose proof (X12_failure_log picky_backend None None None empty_process
                I I I) as H.
  cbv zeta in H. destruct H as (H & _).
  exact (H (ConnectError "connection refused") ltac:(vm_compute; reflexivity)).
Defined.

Lemma X13_witness :
  environ empty_process !! "LANGFUSE_HOST" = None
  ∧ ∃ self p',
      script_tracer picky_backend empty_process = Some (Ret self, p')
      ∧ environ p'
        = <["LANGFUSE_HOST" := "http://localhost:3000"]> (environ empty_process).
Proof.
  split; [vm_compute; reflexivity|].
  destruct (init_returns picky_backend None None
              (Some "http://localhost:3000") empty_process I I eq_refl)
    as (self & records & p' & Hrun & _).
  exists self, p'. split; [exact Hrun|].
  exact (X13_script_defaults_the_host picky_backend empty_process self p' Hrun).
Defined.

Lemma X14_witness :
  (∀ h, ¬ backend_ready picky_backend
          (<["LANGFUSE_HOST" := "http://localhost:3000"]>
             (environ empty_process)) h)
  ∧ ∃ p',
      script_run demo_pregel picky_backend 1 demo_state empty_process
        demo_store
      = Some (Ret demo_state, p', demo_store).
Proof.
  split; [exact picky_backend_down|].
  destruct (X14_script_runs_untraced_when_backend_fails demo_pregel
              picky_backend 1 demo_state empty_process demo_store
              picky_backend_down) as (p' & Hrun & _).
  exists p'. exact Hrun.
Defined.

Lemma picky_backend_ready_with_host :
  backend_ready picky_backend
    (<["LANGFUSE_HOST" := "http://localhost:3000"]> (environ demo_process)) 9.
Proof. exists 1. repeat split; vm_compute; reflexivity. Defined.

Lemma X15_witness :
  environ demo_process !! "LANGFUSE_HOST" = None
  ∧ backend_ready picky_backend
      (<["LANGFUSE_HOST" := "http://localhost:3000"]> (environ demo_process)) 9
  ∧ objs demo_store !! 1 = Some demo_workflow
  ∧ ∃ p' s',
      script_run demo_pregel picky_backend 1 demo_state demo_process demo_store
      = Some (Ret demo_state, p', s')
      ∧ dicts s' !! 10 = Some [("callbacks", VList [VObj 9])].
Proof.
  split; [vm_compute; reflexivity|].
  split; [exact picky_backend_ready_with_host|]. split; [reflexivity|].
  pose proof (X15_script_runs_traced_when_backend_ready demo_pregel
                picky_backend 1 demo_workflow demo_state demo_process
                demo_store 9 picky_backend_ready_with_host eq_refl) as H.
  cbv zeta in H. destruct H as (_ & p' & _ & _ & Hrun).
  exists p'. eexists. split; [exact Hrun|]. vm_compute. reflexivity.
Defined.
